(** * PDF-compresser.py: engine locator, argument builder and runner

    A shallow embedding of [src/PDF-compresser.py] and the properties of
    its specification.

    Text.  Rocq's [ascii] has eight bits, so a [string] stands for a Python
    [str] whose code points are below 256; [lower] and [strip] are
    [str.lower] and [str.strip] on that range.

    Effects.  The filesystem, the command-search path and the spawned
    engine live outside the program.  They are reached through the
    operations of a [Host], and every call is written to a log together
    with what it returned, in the order the program makes them. *)

From Stdlib Require Import ZArith NArith List Bool Ascii String Lia.
From Stdlib Require Import DecimalString.
From Stdlib Require Decimal DecimalZ.
Import ListNotations.

Local Open Scope string_scope.
Local Open Scope list_scope.
Local Open Scope Z_scope.

(** ** Text: the [str] methods the program calls *)

Module Str.

Definition code (c : ascii) : N := N_of_ascii c.

Definition between (lo hi : N) (c : ascii) : bool :=
  (N.leb lo (code c) && N.leb (code c) hi)%bool.

(** Code points below 256 that have a lowercase partner: A-Z, and the
    Latin-1 capitals U+00C0..U+00DE without the multiplication sign. *)
Definition is_upper (c : ascii) : bool :=
  (between 65 90 c
   || (between 192 222 c && negb (N.eqb (code c) 215)))%bool.

Definition is_lower_az (c : ascii) : bool := between 97 122 c.

Definition lower_ascii (c : ascii) : ascii :=
  if is_upper c then ascii_of_N (code c + 32) else c.

(** [s.lower()] *)
Fixpoint lower (s : string) : string :=
  match s with
  | EmptyString => EmptyString
  | String c s' => String (lower_ascii c) (lower s')
  end.

(** [c.isspace()] for a code point below 256: tab, line feed, vertical
    tab, form feed, carriage return, the four separators U+001C..U+001F,
    space, next-line U+0085 and no-break space U+00A0. *)
Definition isspace (c : ascii) : bool :=
  (between 9 13 c || between 28 32 c
   || N.eqb (code c) 133 || N.eqb (code c) 160)%bool.

Fixpoint lstrip (s : string) : string :=
  match s with
  | EmptyString => EmptyString
  | String c s' => if isspace c then lstrip s' else s
  end.

Fixpoint rstrip (s : string) : string :=
  match s with
  | EmptyString => EmptyString
  | String c s' =>
      match rstrip s' with
      | EmptyString => if isspace c then EmptyString else String c EmptyString
      | r => String c r
      end
  end.

(** [s.strip()] *)
Definition strip (s : string) : string := rstrip (lstrip s).

(** Truth value of a [str]: only the empty string is false. *)
Definition truthy (s : string) : bool :=
  match s with EmptyString => false | String _ _ => true end.

(** Truth value of a [str | None]. *)
Definition truthy_opt (o : option string) : bool :=
  match o with None => false | Some s => truthy s end.

(** [sep.join(parts)] *)
Definition join (sep : string) (parts : list string) : string :=
  String.concat sep parts.

(** [str(n)] and [f"{n}"] for an [int]. *)
Definition of_int (n : Z) : string := NilZero.string_of_int (Z.to_int n).

(** [int(s)] on the decimal text of an integer. *)
Definition to_int (s : string) : option Z :=
  option_map Z.of_int (NilZero.int_of_string s).

(** [t in s] *)
Definition contains (s t : string) : Prop :=
  exists pre post, s = (pre ++ t ++ post)%string.

(** Case-insensitive comparison, character by character: two characters
    agree when they are equal, or when both are letters and differ in
    the case bit only. *)
Definition is_letter (c : ascii) : bool :=
  (is_upper c || is_upper (ascii_of_N (code c - 32)))%bool.

Definition ascii_eq_nocase (a b : ascii) : bool :=
  (Ascii.eqb a b
   || (is_letter a && is_letter b
       && N.eqb (N.lxor (code a) (code b)) 32))%bool.

Fixpoint eq_nocase (s t : string) : bool :=
  match s, t with
  | EmptyString, EmptyString => true
  | String a s', String b t' => (ascii_eq_nocase a b && eq_nocase s' t')%bool
  | _, _ => false
  end.

Fixpoint all_lower_az (s : string) : bool :=
  match s with
  | EmptyString => true
  | String c s' => (is_lower_az c && all_lower_az s')%bool
  end.

End Str.

(** ** Python lists: slice assignment *)

Module PyList.

(** The bound [i] of a slice of a list of length [n]: a negative bound
    counts from the end, and the result is clamped to [0..n]. *)
Definition slice_bound (n i : Z) : nat :=
  let j := if i <? 0 then i + n else i in
  Z.to_nat (Z.min (Z.max j 0) n).

(** [l[i:i] = extra] *)
Definition insert_slice {A} (l : list A) (i : Z) (extra : list A) : list A :=
  let k := slice_bound (Z.of_nat (List.length l)) i in
  firstn k l ++ extra ++ skipn k l.

(** [len(l)] *)
Definition len {A} (l : list A) : Z := Z.of_nat (List.length l).

End PyList.

(** ** Data *)

(** [pathlib.Path], kept by its text: [str p] is [str(p)]. *)
Record Path : Set := MkPath { str : string }.

(** [QUALITY_MAP]: a dict literal, in insertion order. *)
Definition QUALITY_MAP : list (string * string) :=
  [ ("screen", "/screen");
    ("ebook", "/ebook");
    ("printer", "/printer");
    ("prepress", "/prepress");
    ("default", "/default") ].

(** [d.get(k)] *)
Fixpoint dict_get (d : list (string * string)) (k : string) : option string :=
  match d with
  | [] => None
  | (k', v) :: d' => if String.eqb k' k then Some v else dict_get d' k
  end.

(** Iterating a dict yields its keys. *)
Definition dict_keys (d : list (string * string)) : list string := map fst d.

(** The five preset names of the specification. *)
Definition preset_names : list string :=
  ["screen"; "ebook"; "printer"; "prepress"; "default"].

(** A preset is valid when it is one of the five names up to letter case. *)
Definition valid_preset (preset : string) : Prop :=
  exists name, In name preset_names /\ Str.eq_nocase preset name = true.

(** The candidate binary names of [find_gs], in the order of its loop. *)
Definition GS_NAMES : list string := ["gswin64c"; "gswin32c"; "gs"].

(** [subprocess.CompletedProcess], with the streams captured as text. *)
Record CompletedProcess : Set :=
  { returncode : Z; stdout : string; stderr : string }.

(** The exceptions that leave the program.  [OSError] stands for whatever
    a library call of the host raises (creating a directory, reading a file
    size, spawning a process); the others are raised by the program's own
    [raise] statements and by the division in the report. *)
Inductive exn : Set :=
| FileNotFoundError (msg : string)
| ValueError (msg : string)
| RuntimeError (msg : string)
| SystemExit (msg : string)
| ZeroDivisionError
| OSError (msg : string).

Inductive result (A : Type) : Type :=
| Ok (a : A)
| Raise (e : exn).
Arguments Ok {A} a.
Arguments Raise {A} e.

(** The exit status of the interpreter: 0 after a normal return, 1 after
    an uncaught exception and after [SystemExit] with a message. *)
Definition exit_status {A} (r : result A) : Z :=
  match r with Ok _ => 0 | Raise _ => 1 end.

(** The calls to the host, each with what it returned. *)
Inductive event : Set :=
| EvResolve (p q : Path)
| EvMkdir (p : Path) (err : option string)
| EvExists (p : Path) (b : bool)
| EvWhich (name : string) (found : option string)
| EvRun (cmd : list string) (done : option CompletedProcess)
| EvStat (p : Path) (size : option Z)
| EvPrint (line : string).

Definition is_run (e : event) : bool :=
  match e with EvRun _ _ => true | _ => false end.

Definition is_which (e : event) : bool :=
  match e with EvWhich _ _ => true | _ => false end.

(** The calls that ask this program to change the filesystem. *)
Definition is_fs_write (e : event) : bool :=
  match e with EvMkdir _ _ => true | _ => false end.

(** The calls that neither spawn a process nor change the filesystem. *)
Definition quiet (ev : event) : bool := negb (is_run ev || is_fs_write ev).

(** The calls that only look something up. *)
Definition is_lookup (e : event) : bool :=
  match e with
  | EvResolve _ _ | EvExists _ _ | EvWhich _ _ | EvStat _ _ => true
  | _ => false
  end.

(** ** The argument list of [compress_pdf] *)

(** Lines 44-57: the list literal. *)
Definition base_cmd (gs preset_gs : string) (input_pdf output_pdf : Path)
  : list string :=
  [ gs;
    "-sDEVICE=pdfwrite";
    "-dCompatibilityLevel=1.4";
    "-dPDFSETTINGS=" ++ preset_gs;
    "-dNOPAUSE";
    "-dBATCH";
    "-dQUIET";
    "-dDetectDuplicateImages=true";
    "-dCompressFonts=true";
    "-dSubsetFonts=true";
    "-sOutputFile=" ++ str output_pdf;
    str input_pdf ]%string.

(** Lines 64-71: the downsampling flags. *)
Definition extra_flags (dpi : Z) : list string :=
  [ "-dDownsampleColorImages=true";
    "-dColorImageResolution=" ++ Str.of_int dpi;
    "-dDownsampleGrayImages=true";
    "-dGrayImageResolution=" ++ Str.of_int dpi;
    "-dDownsampleMonoImages=true";
    "-dMonoImageResolution=" ++ Str.of_int dpi ]%string.

(** Lines 44-72: the list, with the flags spliced in when [dpi] is given.
    [int(dpi)] of line 61 leaves an [int] as it is. *)
Definition build_cmd (gs preset_gs : string) (input_pdf output_pdf : Path)
    (dpi : option Z) : list string :=
  let cmd := base_cmd gs preset_gs input_pdf output_pdf in
  match dpi with
  | None => cmd
  | Some dpi =>
      let insert_at := PyList.len cmd - 2 in
      PyList.insert_slice cmd insert_at (extra_flags dpi)
  end.

(** The message of the [ValueError] of line 42. *)
Definition unknown_preset_msg (preset : string) : string :=
  ("Unknown preset '" ++ preset ++ "'. Choose: "
     ++ Str.join ", " (dict_keys QUALITY_MAP))%string.

Definition LF : string := String (ascii_of_nat 10) EmptyString.

(** The message of the [RuntimeError] of lines 76-79. *)
Definition gs_failed_msg (r : CompletedProcess) : string :=
  ("Ghostscript failed." ++ LF
     ++ "STDERR:" ++ LF ++ Str.strip (stderr r) ++ LF ++ LF
     ++ "STDOUT:" ++ LF ++ Str.strip (stdout r))%string.

Definition gs_not_found_at_msg (explicit : string) : string :=
  ("Ghostscript not found at: " ++ explicit)%string.

Definition gs_not_found_msg : string :=
  ("Ghostscript not found. Install it and/or add its bin folder to PATH "
     ++ "(so gswin64c.exe is discoverable).")%string.

Definition bad_input_msg (inp : Path) : string :=
  ("Input must be an existing PDF: " ++ str inp)%string.

(** ** The host: filesystem, search path and processes *)

(** What the program calls but does not define: the operations of
    [pathlib], [shutil] and [subprocess], as functions of the state of the
    world [world].  [mkdir_parents] is
    [Path.mkdir(parents=True, exist_ok=True)]; [run] is
    [subprocess.run(cmd, capture_output=True, text=True)], which waits for
    the process and leaves the world as the process made it;
    [format_sizes] renders the last line of the report. *)
Class Host : Type :=
  { world : Type;
    path_of_str : string -> Path;
    parent : Path -> Path;
    suffix : Path -> string;
    resolve : world -> Path -> Path;
    exists_ : world -> Path -> bool;
    mkdir_parents : world -> Path -> string + world;
    stat_size : world -> Path -> string + Z;
    which : world -> string -> option string;
    run : world -> list string -> string + (CompletedProcess * world);
    format_sizes : Z -> Z -> string }.

(** ** Computations: state, log and exceptions *)

Record outcome (W A : Type) : Type :=
  Outcome { value : result A; final : W; log : list event }.
Arguments Outcome {W A} value final log.
Arguments value {W A} o.
Arguments final {W A} o.
Arguments log {W A} o.

Section Program.

Context {H : Host}.

Definition M (A : Type) : Type := world -> outcome world A.

Definition ret {A} (a : A) : M A := fun w => Outcome (Ok a) w [].

Definition raise {A} (e : exn) : M A := fun w => Outcome (Raise e) w [].

Definition bind {A B} (m : M A) (k : A -> M B) : M B :=
  fun w =>
    let o := m w in
    match value o with
    | Raise e => Outcome (Raise e) (final o) (log o)
    | Ok a =>
        let o' := k a (final o) in
        Outcome (value o') (final o') (log o ++ log o')
    end.

Notation "x <- m ;; k" := (bind m (fun x => k))
  (at level 100, m at next level, right associativity).
Notation "m ;; k" := (bind m (fun _ => k))
  (at level 100, right associativity).

(** The calls to the host. *)

Definition do_resolve (p : Path) : M Path :=
  fun w => let q := resolve w p in Outcome (Ok q) w [EvResolve p q].

Definition do_exists (p : Path) : M bool :=
  fun w => let b := exists_ w p in Outcome (Ok b) w [EvExists p b].

Definition do_which (name : string) : M (option string) :=
  fun w => let r := which w name in Outcome (Ok r) w [EvWhich name r].

Definition do_mkdir (p : Path) : M unit :=
  fun w =>
    match mkdir_parents w p with
    | inl msg => Outcome (Raise (OSError msg)) w [EvMkdir p (Some msg)]
    | inr w' => Outcome (Ok tt) w' [EvMkdir p None]
    end.

Definition do_stat (p : Path) : M Z :=
  fun w =>
    match stat_size w p with
    | inl msg => Outcome (Raise (OSError msg)) w [EvStat p None]
    | inr n => Outcome (Ok n) w [EvStat p (Some n)]
    end.

Definition do_run (cmd : list string) : M CompletedProcess :=
  fun w =>
    match run w cmd with
    | inl msg => Outcome (Raise (OSError msg)) w [EvRun cmd None]
    | inr (r, w') => Outcome (Ok r) w' [EvRun cmd (Some r)]
    end.

Definition print (line : string) : M unit :=
  fun w => Outcome (Ok tt) w [EvPrint line].

(** ** The program *)

(** Lines 22-25: the loop over the candidate names, left at the first
    name that [shutil.which] finds. *)
Fixpoint which_first (names : list string) : M (option string) :=
  match names with
  | [] => ret None
  | name :: rest =>
      p <- do_which name ;;
      if Str.truthy_opt p then ret p else which_first rest
  end.

(** Lines 22-30: the search of the command-search path and the error
    after the loop. *)
Definition search_path : M string :=
  r <- which_first GS_NAMES ;;
  match r with
  | Some p => ret p
  | None => raise (FileNotFoundError gs_not_found_msg)
  end.

(** Lines 14-30.  [if explicit:] is false for [None] and for the empty
    string. *)
Definition find_gs (explicit : option string) : M string :=
  match explicit with
  | Some e =>
      if Str.truthy e then
        let p := path_of_str e in
        b <- do_exists p ;;
        if b then ret (str p)
        else raise (FileNotFoundError (gs_not_found_at_msg e))
      else search_path
  | None => search_path
  end.

(** Lines 32-79. *)
Definition compress_pdf (input_pdf output_pdf : Path) (preset : string)
    (dpi : option Z) (gs_path : option string) : M unit :=
  gs <- find_gs gs_path ;;
  let preset_gs := dict_get QUALITY_MAP (Str.lower preset) in
  match preset_gs with
  | Some tok =>
      if Str.truthy tok then
        let cmd := build_cmd gs tok input_pdf output_pdf dpi in
        r <- do_run cmd ;;
        if negb (returncode r =? 0)
        then raise (RuntimeError (gs_failed_msg r))
        else ret tt
      else raise (ValueError (unknown_preset_msg preset))
  | None => raise (ValueError (unknown_preset_msg preset))
  end.

(** The namespace that [argparse] hands to [main]. *)
Record Namespace : Set :=
  { args_input : Path;
    args_output : Path;
    args_preset : string;
    args_dpi : option Z;
    args_gs : option string }.

(** Lines 90-102, the body of [main] after [parse_args]. *)
Definition main (args : Namespace) : M unit :=
  inp <- do_resolve (args_input args) ;;
  out <- do_resolve (args_output args) ;;
  do_mkdir (parent out) ;;
  e <- do_exists inp ;;
  if (negb e || negb (String.eqb (Str.lower (suffix inp)) ".pdf"))%bool
  then raise (SystemExit (bad_input_msg inp))
  else
    compress_pdf inp out (args_preset args) (args_dpi args) (args_gs args) ;;
    before <- do_stat inp ;;
    after <- do_stat out ;;
    print ("Saved: " ++ str out)%string ;;
    if before =? 0 then raise ZeroDivisionError
    else print (format_sizes before after).

End Program.

(** ** A small host to run the program on

    A POSIX-like world for the examples: paths are absolute and normalised
    text without symbolic links, so that [Path(s)] and [resolve] keep the
    text; the filesystem is a list of directories and a list of files with
    their sizes; the search path is a table from command names to the files
    they resolve to; the engine, when its executable is a file, exits with
    the status and streams the world prescribes and, on status 0, writes
    the file named by its [-sOutputFile=] argument. *)

Module Demo.

Record World : Type :=
  { dirs : list string;
    files : list (string * Z);
    on_path : list (string * string);
    engine_exit : Z;
    engine_stdout : string;
    engine_stderr : string;
    engine_output_size : Z }.

Definition slash : ascii := "/"%char.
Definition dot : ascii := "."%char.

(** The characters after the last [c], when there is one, taken from the
    reversed text. *)
Fixpoint after_last (c : ascii) (rev_chars : list ascii) : option (list ascii) :=
  match rev_chars with
  | [] => None
  | x :: r => if Ascii.eqb x c then Some r else after_last c r
  end.

Fixpoint until_first (c : ascii) (chars : list ascii) : list ascii :=
  match chars with
  | [] => []
  | x :: r => if Ascii.eqb x c then [] else x :: until_first c r
  end.

Definition chars (s : string) : list ascii := list_ascii_of_string s.
Definition text (l : list ascii) : string := string_of_list_ascii l.

(** [p.parent] *)
Definition parent_text (s : string) : string :=
  match after_last slash (rev (chars s)) with
  | None => "."
  | Some [] => "/"
  | Some r => text (rev r)
  end.

(** [p.name] *)
Definition name_text (s : string) : string :=
  text (rev (until_first slash (rev (chars s)))).

(** [p.suffix]: the name from its last dot on, when that dot is neither
    the first nor the last character of the name. *)
Definition suffix_text (s : string) : string :=
  let name := chars (name_text s) in
  let tail := rev (until_first dot (rev name)) in
  let i := (List.length name - List.length tail - 1)%nat in
  if (Nat.ltb (List.length tail) (List.length name)
      && Nat.ltb 0 i && Nat.ltb 0 (List.length tail))%bool
  then text (dot :: tail) else "".

Fixpoint mem (s : string) (l : list string) : bool :=
  match l with
  | [] => false
  | x :: r => (String.eqb x s || mem s r)%bool
  end.

Fixpoint lookup {A} (s : string) (l : list (string * A)) : option A :=
  match l with
  | [] => None
  | (k, v) :: r => if String.eqb k s then Some v else lookup s r
  end.

Definition is_file (w : World) (s : string) : bool :=
  match lookup s (files w) with Some _ => true | None => false end.

(** The path and its ancestors below the root, nearest first. *)
Fixpoint chain (fuel : nat) (s : string) : list string :=
  match fuel with
  | O => []
  | S n =>
      if (String.eqb s "/" || String.eqb s ".")%bool then []
      else s :: chain n (parent_text s)
  end.

Definition add_dir (d : string) (ds : list string) : list string :=
  if mem d ds then ds else d :: ds.

Definition with_dirs (w : World) (ds : list string) : World :=
  {| dirs := ds; files := files w; on_path := on_path w;
     engine_exit := engine_exit w; engine_stdout := engine_stdout w;
     engine_stderr := engine_stderr w;
     engine_output_size := engine_output_size w |}.

Definition with_file (w : World) (f : string) (n : Z) : World :=
  {| dirs := dirs w; files := (f, n) :: files w; on_path := on_path w;
     engine_exit := engine_exit w; engine_stdout := engine_stdout w;
     engine_stderr := engine_stderr w;
     engine_output_size := engine_output_size w |}.

Definition mkdir_p (w : World) (p : Path) : string + World :=
  let c := chain (S (String.length (str p))) (str p) in
  if existsb (is_file w) c then inl "File exists"
  else inr (with_dirs w (fold_right add_dir (dirs w) c)).

Definition exists_text (w : World) (s : string) : bool :=
  (mem s (dirs w) || is_file w s || String.eqb s "/")%bool.

Definition size_of (w : World) (p : Path) : string + Z :=
  match lookup (str p) (files w) with
  | Some n => inr n
  | None =>
      if exists_text w (str p) then inr 4096
      else inl "No such file or directory"
  end.

(** The text after [-sOutputFile=] in the first argument that starts so. *)
Fixpoint output_arg (cmd : list string) : option string :=
  match cmd with
  | [] => None
  | a :: r =>
      if String.prefix "-sOutputFile=" a
      then Some (String.substring 13 (String.length a - 13) a)
      else output_arg r
  end.

Definition spawn (w : World) (cmd : list string)
  : string + (CompletedProcess * World) :=
  match cmd with
  | [] => inl "empty command"
  | exe :: _ =>
      if is_file w exe then
        let r := {| returncode := engine_exit w;
                    stdout := engine_stdout w;
                    stderr := engine_stderr w |} in
        match output_arg cmd with
        | Some f =>
            if engine_exit w =? 0
            then inr (r, with_file w f (engine_output_size w))
            else inr (r, w)
        | None => inr (r, w)
        end
      else inl "No such file or directory"
  end.

(** The sizes in bytes; the program prints them in megabytes with a ratio,
    which takes floating-point division and is left out of this host. *)
Definition sizes_line (before after : Z) : string :=
  ("Size: " ++ Str.of_int before ++ " B -> " ++ Str.of_int after ++ " B")%string.

#[export] Instance host : Host :=
  {| world := World;
     path_of_str := MkPath;
     parent := fun p => MkPath (parent_text (str p));
     suffix := fun p => suffix_text (str p);
     resolve := fun _ p => p;
     exists_ := fun w p => exists_text w (str p);
     mkdir_parents := mkdir_p;
     stat_size := size_of;
     which := fun w name => lookup name (on_path w);
     run := spawn;
     format_sizes := sizes_line |}.

(** A machine with Ghostscript installed and one document. *)
Definition installed : World :=
  {| dirs := ["/usr"; "/usr/bin"; "/home"; "/home/u"];
     files := [("/usr/bin/gs", 100000); ("/home/u/doc.pdf", 2000000)];
     on_path := [("gs", "/usr/bin/gs")];
     engine_exit := 0;
     engine_stdout := "";
     engine_stderr := "";
     engine_output_size := 500000 |}.

(** The same machine without the engine. *)
Definition bare : World :=
  {| dirs := ["/home"; "/home/u"];
     files := [("/home/u/doc.pdf", 2000000)];
     on_path := [];
     engine_exit := 0;
     engine_stdout := "";
     engine_stderr := "";
     engine_output_size := 0 |}.

(** The first machine with an engine that rejects its input. *)
Definition failing : World :=
  {| dirs := dirs installed;
     files := files installed;
     on_path := on_path installed;
     engine_exit := 1;
     engine_stdout := " ";
     engine_stderr := "error: corrupt xref" ++ LF;
     engine_output_size := 0 |}.

Definition cli (inp out preset : string) (dpi : option Z) (gs : option string)
  : Namespace :=
  {| args_input := MkPath inp; args_output := MkPath out;
     args_preset := preset; args_dpi := dpi; args_gs := gs |}.

End Demo.

(** ** Descriptions taken from the specification *)

Section Described.

Context {H : Host}.

(** "Searches the command-search path for candidate binary names in a
    fixed priority order; returns the first match found": the result of
    the first name, in that order, that the search path resolves. *)
Definition first_match (w : world) (names : list string) : option string :=
  match find (fun name => Str.truthy_opt (which w name)) names with
  | Some name => which w name
  | None => None
  end.

(** The names tried up to and including the first that resolves. *)
Fixpoint tried (w : world) (names : list string) : list string :=
  match names with
  | [] => []
  | name :: rest =>
      if Str.truthy_opt (which w name) then [name] else name :: tried w rest
  end.

End Described.


(** Every character, for checks that run over all of them. *)
Definition all_ascii : list ascii := map ascii_of_nat (seq 0 256).

(** On a lowercase target, lowering then comparing is comparing without
    case. *)
Definition lower_agrees (a b : ascii) : bool :=
  implb (Str.is_lower_az b)
        (Bool.eqb (Ascii.eqb (Str.lower_ascii a) b) (Str.ascii_eq_nocase a b)).

(** ** The command-line choices *)

(** [sorted(l)] on strings: a stable insertion sort by code points. *)
Fixpoint insert_sorted (x : string) (l : list string) : list string :=
  match l with
  | [] => [x]
  | y :: r => if String.leb x y then x :: l else y :: insert_sorted x r
  end.

Definition sorted (l : list string) : list string :=
  fold_right insert_sorted [] l.

(** Line 85: [choices=sorted(QUALITY_MAP.keys())], the values that
    [argparse] lets through as [--preset]. *)
Definition preset_choices : list string := sorted (dict_keys QUALITY_MAP).

(** Line 85: [default="ebook"]. *)
Definition preset_default : string := "ebook".



(** * Properties *)

(** ** Text *)

Lemma in_all_ascii (c : ascii) : In c all_ascii.
Proof.
  unfold all_ascii. rewrite <- (ascii_nat_embedding c).
  apply in_map, in_seq. pose proof (nat_ascii_bounded c). lia.
Qed.

Lemma lower_agrees_all :
  forallb (fun a => forallb (lower_agrees a) all_ascii) all_ascii = true.
Proof. vm_compute. reflexivity. Qed.

Lemma lower_ascii_nocase (a b : ascii) :
  Str.is_lower_az b = true ->
  (Str.lower_ascii a = b <-> Str.ascii_eq_nocase a b = true).
Proof.
  intros Hb.
  pose proof lower_agrees_all as Hall.
  rewrite forallb_forall in Hall. specialize (Hall a (in_all_ascii a)).
  rewrite forallb_forall in Hall. specialize (Hall b (in_all_ascii b)).
  unfold lower_agrees in Hall. rewrite Hb in Hall. simpl in Hall.
  apply Bool.eqb_prop in Hall. rewrite <- Hall. symmetry. apply Ascii.eqb_eq.
Qed.

Lemma lower_eq_nocase (s name : string) :
  Str.all_lower_az name = true ->
  (Str.lower s = name <-> Str.eq_nocase s name = true).
Proof.
  revert name. induction s as [|a s IH]; intros [|b name]; simpl; intros Hn.
  - tauto.
  - split; discriminate.
  - split; discriminate.
  - apply andb_true_iff in Hn as [Hb Hn].
    rewrite andb_true_iff, <- (IH name Hn), <- (lower_ascii_nocase a b Hb).
    split.
    + intros [= -> ->]. auto.
    + intros [-> ->]. reflexivity.
Qed.

Lemma preset_names_lower (name : string) :
  In name preset_names -> Str.all_lower_az name = true.
Proof.
  simpl. intros [<-|[<-|[<-|[<-|[<-|[]]]]]]; reflexivity.
Qed.

Lemma lstrip_spec (s : string) :
  exists l, s = (l ++ Str.lstrip s)%string
            /\ forallb Str.isspace (list_ascii_of_string l) = true.
Proof.
  induction s as [|c s [l [E Hl]]]; simpl.
  - exists ""%string. auto.
  - destruct (Str.isspace c) eqn:Hc.
    + exists (String c l). simpl. rewrite Hc, Hl. split; [congruence | reflexivity].
    + exists ""%string. auto.
Qed.

Lemma rstrip_spec (s : string) :
  exists r, s = (Str.rstrip s ++ r)%string
            /\ forallb Str.isspace (list_ascii_of_string r) = true.
Proof.
  induction s as [|c s [r [E Hr]]]; simpl.
  - exists ""%string. auto.
  - destruct (Str.rstrip s) as [|c' r'] eqn:Hs.
    + simpl in E. subst s. destruct (Str.isspace c) eqn:Hc.
      * exists (String c r). simpl. rewrite Hc, Hr. auto.
      * exists r. auto.
    + exists r. simpl in *. split; [congruence | assumption].
Qed.

(** [strip] removes whitespace at both ends and nothing else. *)
Lemma strip_spec (s : string) :
  exists l r, s = (l ++ Str.strip s ++ r)%string
              /\ forallb Str.isspace (list_ascii_of_string l) = true
              /\ forallb Str.isspace (list_ascii_of_string r) = true.
Proof.
  destruct (lstrip_spec s) as [l [El Hl]].
  destruct (rstrip_spec (Str.lstrip s)) as [r [Er Hr]].
  exists l, r. unfold Str.strip. rewrite <- Er. auto.
Qed.

(** ** The preset table *)

Lemma dict_get_QUALITY_MAP (k v : string) :
  dict_get QUALITY_MAP k = Some v <->
  In k preset_names /\ v = ("/" ++ k)%string.
Proof.
  unfold QUALITY_MAP, preset_names. cbn [dict_get].
  repeat
    match goal with
    | |- context [String.eqb ?a k] =>
        destruct (String.eqb_spec a k) as [<-|?]
    end;
    split; intros E;
    try discriminate E;
    try (injection E as <-; split; [simpl; tauto | reflexivity]);
    try (destruct E as [Hin ->]; try reflexivity;
         simpl in Hin; exfalso; intuition congruence).
Qed.

Lemma dict_get_valid (preset name : string) :
  In name preset_names -> Str.eq_nocase preset name = true ->
  dict_get QUALITY_MAP (Str.lower preset) = Some ("/" ++ name)%string.
Proof.
  intros Hin Heq.
  apply lower_eq_nocase in Heq; [|apply preset_names_lower, Hin].
  rewrite Heq. apply dict_get_QUALITY_MAP. auto.
Qed.

Lemma dict_get_invalid (preset : string) :
  ~ valid_preset preset ->
  dict_get QUALITY_MAP (Str.lower preset) = None.
Proof.
  intros Hnv. destruct (dict_get QUALITY_MAP (Str.lower preset)) eqn:E; auto.
  apply dict_get_QUALITY_MAP in E as [Hin _].
  exfalso. apply Hnv. exists (Str.lower preset). split; [exact Hin|].
  apply lower_eq_nocase; [apply preset_names_lower, Hin | reflexivity].
Qed.

Lemma tokens_truthy (k v : string) :
  dict_get QUALITY_MAP k = Some v -> Str.truthy v = true.
Proof. intros E. apply dict_get_QUALITY_MAP in E as [_ ->]. reflexivity. Qed.

(** ** The argument list *)

Lemma build_cmd_shape (gs tok : string) (i o : Path) (dpi : option Z) :
  build_cmd gs tok i o dpi =
  [ gs; "-sDEVICE=pdfwrite"; "-dCompatibilityLevel=1.4";
    ("-dPDFSETTINGS=" ++ tok)%string; "-dNOPAUSE"; "-dBATCH"; "-dQUIET";
    "-dDetectDuplicateImages=true"; "-dCompressFonts=true";
    "-dSubsetFonts=true" ]
  ++ match dpi with Some d => extra_flags d | None => [] end
  ++ [ ("-sOutputFile=" ++ str o)%string; str i ].
Proof. destruct dpi; reflexivity. Qed.

(** ** The locator *)

Section Behaviour.

Context {H : Host}.

Lemma which_first_spec (w : world) (names : list string) :
  which_first names w =
  Outcome (Ok (first_match w names)) w
          (map (fun name => EvWhich name (which w name)) (tried w names)).
Proof.
  induction names as [|name rest IH]; [reflexivity|].
  unfold first_match in *. cbn [which_first tried find].
  unfold bind, do_which. cbn [value final log].
  destruct (Str.truthy_opt (which w name)) eqn:E.
  - reflexivity.
  - rewrite IH. reflexivity.
Qed.

Lemma search_path_spec (w : world) :
  search_path w =
  Outcome match first_match w GS_NAMES with
          | Some p => Ok p
          | None => Raise (FileNotFoundError gs_not_found_msg)
          end
          w
          (map (fun name => EvWhich name (which w name)) (tried w GS_NAMES)).
Proof.
  unfold search_path, bind. rewrite which_first_spec. cbn [value final log].
  destruct (first_match w GS_NAMES); cbn [ret raise value final log];
    rewrite app_nil_r; reflexivity.
Qed.

Lemma find_gs_none (w : world) :
  find_gs None w =
  Outcome match first_match w GS_NAMES with
          | Some p => Ok p
          | None => Raise (FileNotFoundError gs_not_found_msg)
          end
          w
          (map (fun name => EvWhich name (which w name)) (tried w GS_NAMES)).
Proof. apply search_path_spec. Qed.

Lemma find_gs_empty (w : world) : find_gs (Some "") w = find_gs None w.
Proof. reflexivity. Qed.

Lemma find_gs_explicit (w : world) (e : string) :
  e <> ""%string ->
  find_gs (Some e) w =
  Outcome (if exists_ w (path_of_str e)
           then Ok (str (path_of_str e))
           else Raise (FileNotFoundError (gs_not_found_at_msg e)))
          w
          [EvExists (path_of_str e) (exists_ w (path_of_str e))].
Proof.
  intros He. destruct e as [|c e]; [congruence|].
  unfold find_gs. cbn [Str.truthy]. unfold bind, do_exists.
  cbn [value final log].
  destruct (exists_ w (path_of_str (String c e))); reflexivity.
Qed.

Lemma find_gs_quiet (explicit : option string) (w : world) :
  final (find_gs explicit w) = w
  /\ Forall (fun ev => is_lookup ev = true) (log (find_gs explicit w)).
Proof.
  assert (Hnone : final (find_gs None w) = w
                  /\ Forall (fun ev => is_lookup ev = true)
                            (log (find_gs None w))).
  { rewrite find_gs_none. cbn [final log]. split; [reflexivity|].
    apply Forall_forall. intros ev Hin. apply in_map_iff in Hin as [n [<- _]].
    reflexivity. }
  destruct explicit as [[|c e]|]; [exact Hnone | | exact Hnone].
  rewrite find_gs_explicit by discriminate. cbn [final log].
  split; [reflexivity|]. repeat constructor.
Qed.

(** ** The runner *)

Lemma compress_pdf_locator_fails i o preset dpi gs_path (w : world) e :
  value (find_gs gs_path w) = Raise e ->
  compress_pdf i o preset dpi gs_path w =
  Outcome (Raise e) w (log (find_gs gs_path w)).
Proof.
  intros E. unfold compress_pdf, bind. rewrite E.
  rewrite (proj1 (find_gs_quiet gs_path w)). reflexivity.
Qed.

Lemma compress_pdf_unknown_preset i o preset dpi gs_path (w : world) gs :
  value (find_gs gs_path w) = Ok gs ->
  dict_get QUALITY_MAP (Str.lower preset) = None ->
  compress_pdf i o preset dpi gs_path w =
  Outcome (Raise (ValueError (unknown_preset_msg preset))) w
          (log (find_gs gs_path w)).
Proof.
  intros E D. unfold compress_pdf, bind. rewrite E, D.
  rewrite (proj1 (find_gs_quiet gs_path w)).
  cbn [raise value final log]. rewrite app_nil_r. reflexivity.
Qed.

Lemma compress_pdf_runs i o preset dpi gs_path (w : world) gs tok :
  value (find_gs gs_path w) = Ok gs ->
  dict_get QUALITY_MAP (Str.lower preset) = Some tok ->
  compress_pdf i o preset dpi gs_path w =
  let cmd := build_cmd gs tok i o dpi in
  match run w cmd with
  | inl msg =>
      Outcome (Raise (OSError msg)) w
              (log (find_gs gs_path w) ++ [EvRun cmd None])
  | inr (r, w') =>
      Outcome (if returncode r =? 0 then Ok tt
               else Raise (RuntimeError (gs_failed_msg r)))
              w'
              (log (find_gs gs_path w) ++ [EvRun cmd (Some r)])
  end.
Proof.
  intros E D. unfold compress_pdf, bind. rewrite E, D.
  rewrite (tokens_truthy _ _ D).
  rewrite (proj1 (find_gs_quiet gs_path w)).
  unfold do_run. cbv zeta.
  destruct (run w (build_cmd gs tok i o dpi)) as [msg|[r w']];
    cbn [value final log]; [reflexivity|].
  destruct (returncode r =? 0); cbn [negb raise ret value final log];
    rewrite app_nil_r; reflexivity.
Qed.

(** ** The command line *)

Lemma main_mkdir_fails (args : Namespace) (w : world) msg :
  let inp := resolve w (args_input args) in
  let out := resolve w (args_output args) in
  mkdir_parents w (parent out) = inl msg ->
  main args w =
  Outcome (Raise (OSError msg)) w
          [EvResolve (args_input args) inp; EvResolve (args_output args) out;
           EvMkdir (parent out) (Some msg)].
Proof.
  intros inp out E. unfold main, bind, do_resolve, do_mkdir.
  cbn [value final log]. fold out. rewrite E. reflexivity.
Qed.

Lemma main_rejects_input (args : Namespace) (w w1 : world) :
  let inp := resolve w (args_input args) in
  let out := resolve w (args_output args) in
  mkdir_parents w (parent out) = inr w1 ->
  exists_ w1 inp = false \/ Str.lower (suffix inp) <> ".pdf"%string ->
  main args w =
  Outcome (Raise (SystemExit (bad_input_msg inp))) w1
          [EvResolve (args_input args) inp; EvResolve (args_output args) out;
           EvMkdir (parent out) None; EvExists inp (exists_ w1 inp)].
Proof.
  intros inp out E Hbad. unfold main, bind, do_resolve, do_mkdir, do_exists.
  cbn [value final log]. fold inp out. rewrite E. cbn [value final log].
  assert (Hc : (negb (exists_ w1 inp)
                || negb (String.eqb (Str.lower (suffix inp)) ".pdf"))%bool
               = true).
  { destruct Hbad as [->|Hs]; [reflexivity|].
    apply String.eqb_neq in Hs. rewrite Hs. apply orb_true_r. }
  rewrite Hc. reflexivity.
Qed.

Lemma main_compresses (args : Namespace) (w w1 : world) :
  let inp := resolve w (args_input args) in
  let out := resolve w (args_output args) in
  let oc := compress_pdf inp out (args_preset args) (args_dpi args)
                         (args_gs args) w1 in
  mkdir_parents w (parent out) = inr w1 ->
  exists_ w1 inp = true -> Str.lower (suffix inp) = ".pdf"%string ->
  exists tail,
    log (main args w) =
      [EvResolve (args_input args) inp; EvResolve (args_output args) out;
       EvMkdir (parent out) None; EvExists inp true] ++ log oc ++ tail
    /\ forallb quiet tail = true
    /\ (forall e, value oc = Raise e ->
                  value (main args w) = Raise e /\ final (main args w) = final oc
                  /\ tail = [])
    /\ (value (main args w) = Ok tt -> value oc = Ok tt).
Proof.
  intros inp out oc E He Hs.
  unfold main, bind, do_resolve, do_mkdir, do_exists.
  cbn [value final log]. fold inp out. rewrite E. cbn [value final log].
  rewrite He, Hs, String.eqb_refl. cbn [negb orb]. fold oc.
  destruct (value oc) as [[]|e] eqn:Ev; cbn [value final log].
  - unfold do_stat, print.
    destruct (stat_size (final oc) inp) as [m|before]; cbn [value final log].
    + eexists. split; [repeat rewrite <- app_assoc; reflexivity|].
      split; [reflexivity|]. split; [discriminate|discriminate].
    + destruct (stat_size (final oc) out) as [m|after]; cbn [value final log].
      * eexists. split; [repeat rewrite <- app_assoc; reflexivity|].
        split; [reflexivity|]. split; [discriminate|discriminate].
      * destruct (before =? 0); cbn [raise value final log];
          (eexists; split; [repeat rewrite <- app_assoc; reflexivity|];
           split; [reflexivity|]; split; [discriminate|auto]).
  - exists []. rewrite app_nil_r. split; [reflexivity|].
    split; [reflexivity|]. split.
    + intros e' [= <-]. auto.
    + discriminate.
Qed.

End Behaviour.

Lemma find_gs_spawns_nothing {H : Host} (explicit : option string) (w : world) :
  filter is_run (log (find_gs explicit w)) = []
  /\ filter is_fs_write (log (find_gs explicit w)) = [].
Proof.
  destruct (find_gs_quiet explicit w) as [_ Hq].
  induction Hq as [|ev l Hev _ [IH1 IH2]]; [auto|].
  destruct ev; try discriminate Hev; cbn [filter is_run is_fs_write]; auto.
Qed.

(** The locator raises nothing but [FileNotFoundError]. *)
Lemma find_gs_raises {H : Host} (explicit : option string) (w : world) e :
  value (find_gs explicit w) = Raise e -> exists msg, e = FileNotFoundError msg.
Proof.
  assert (Hnone : value (find_gs None w) = Raise e ->
                  exists msg, e = FileNotFoundError msg).
  { rewrite find_gs_none. cbn [value].
    destruct (first_match w GS_NAMES); intros [= <-]. eauto. }
  destruct explicit as [[|c e0]|]; [exact Hnone | | exact Hnone].
  rewrite find_gs_explicit by discriminate. cbn [value].
  destruct (exists_ w _); intros [= <-]. eauto.
Qed.

Lemma find_gs_no_run {H : Host} (explicit : option string) (w : world)
    (cmd : list string) (done : option CompletedProcess) :
  ~ In (EvRun cmd done) (log (find_gs explicit w)).
Proof.
  intros Hin. destruct (find_gs_quiet explicit w) as [_ Hq].
  rewrite Forall_forall in Hq. specialize (Hq _ Hin). discriminate Hq.
Qed.

(** What a spawn in the log of [compress_pdf] tells about the call. *)
Lemma compress_pdf_run_inv {H : Host} i o preset dpi gs_path (w : world)
    (cmd : list string) (done : option CompletedProcess) :
  In (EvRun cmd done) (log (compress_pdf i o preset dpi gs_path w)) ->
  exists gs tok,
    value (find_gs gs_path w) = Ok gs
    /\ dict_get QUALITY_MAP (Str.lower preset) = Some tok
    /\ cmd = build_cmd gs tok i o dpi
    /\ match done with
       | Some r => exists w', run w cmd = inr (r, w')
       | None => exists msg, run w cmd = inl msg
       end.
Proof.
  intros Hin.
  destruct (value (find_gs gs_path w)) as [gs|e] eqn:Hgs.
  2:{ rewrite (compress_pdf_locator_fails _ _ _ _ _ _ _ Hgs) in Hin.
      cbn [log] in Hin. apply find_gs_no_run in Hin. contradiction. }
  destruct (dict_get QUALITY_MAP (Str.lower preset)) as [tok|] eqn:Htok.
  2:{ rewrite (compress_pdf_unknown_preset _ _ _ _ _ _ _ Hgs Htok) in Hin.
      cbn [log] in Hin. apply find_gs_no_run in Hin. contradiction. }
  exists gs, tok. split; [reflexivity|]. split; [reflexivity|].
  rewrite (compress_pdf_runs _ _ _ _ _ _ _ _ Hgs Htok) in Hin. cbv zeta in Hin.
  destruct (run w (build_cmd gs tok i o dpi)) as [msg|[r w']] eqn:Hrun;
    cbn [log] in Hin; apply in_app_or in Hin as [Hin|Hin];
    try (apply find_gs_no_run in Hin; contradiction);
    destruct Hin as [[= <- <-]|[]]; split; try reflexivity; eauto.
Qed.

Lemma bogus_invalid : ~ valid_preset "bogus".
Proof.
  intros [name [Hin Heq]]. simpl in Hin.
  destruct Hin as [<-|[<-|[<-|[<-|[<-|[]]]]]]; discriminate Heq.
Qed.

Lemma quiet_filters (l : list event) :
  forallb quiet l = true ->
  filter is_run l = [] /\ filter is_fs_write l = [].
Proof.
  induction l as [|ev l IH]; [auto|]. cbn [forallb].
  intros Hq. apply andb_true_iff in Hq as [Hev Hl].
  destruct (IH Hl) as [IH1 IH2].
  destruct ev; try discriminate Hev; cbn [filter is_run is_fs_write]; auto.
Qed.

(** [compress_pdf] asks for no change of the filesystem, spawns at most one
    process, exactly one when it returns, and leaves the world alone when
    it spawns none. *)
Lemma compress_pdf_effects {H : Host} i o preset dpi gs_path (w : world) :
  let oc := compress_pdf i o preset dpi gs_path w in
  filter is_fs_write (log oc) = []
  /\ (List.length (filter is_run (log oc)) <= 1)%nat
  /\ (value oc = Ok tt -> List.length (filter is_run (log oc)) = 1%nat)
  /\ (filter is_run (log oc) = [] -> final oc = w).
Proof.
  intros oc. unfold oc.
  destruct (find_gs_spawns_nothing gs_path w) as [Hr Hw].
  destruct (value (find_gs gs_path w)) as [gs|e] eqn:Hgs.
  2:{ rewrite (compress_pdf_locator_fails _ _ _ _ _ _ _ Hgs).
      cbn [value final log]. rewrite Hr, Hw. cbn [List.length].
      repeat split; auto; discriminate. }
  destruct (dict_get QUALITY_MAP (Str.lower preset)) as [tok|] eqn:Htok.
  2:{ rewrite (compress_pdf_unknown_preset _ _ _ _ _ _ _ Hgs Htok).
      cbn [value final log]. rewrite Hr, Hw. cbn [List.length].
      repeat split; auto; discriminate. }
  rewrite (compress_pdf_runs _ _ _ _ _ _ _ _ Hgs Htok). cbv zeta.
  destruct (run w (build_cmd gs tok i o dpi)) as [msg|[r w']];
    cbn [value final log]; rewrite !filter_app, Hr, Hw;
    cbn [filter is_run is_fs_write app List.length];
    repeat split; auto; discriminate.
Qed.

(** A spawn in the log of [main] is a spawn of the [compress_pdf] it
    calls, in the world that the creation of the output's parent
    directories left, after the check of the input in that world. *)
Lemma main_run_inv {H : Host} (args : Namespace) (w : world)
    (cmd : list string) (done : option CompletedProcess) :
  let inp := resolve w (args_input args) in
  let out := resolve w (args_output args) in
  In (EvRun cmd done) (log (main args w)) <->
  exists w1,
    mkdir_parents w (parent out) = inr w1
    /\ exists_ w1 inp = true
    /\ Str.lower (suffix inp) = ".pdf"%string
    /\ In (EvRun cmd done)
          (log (compress_pdf inp out (args_preset args) (args_dpi args)
                             (args_gs args) w1)).
Proof.
  intros inp out. split.
  - intros Hin.
    destruct (mkdir_parents w (parent out)) as [msg|w1] eqn:Emk.
    { rewrite (main_mkdir_fails args w msg Emk) in Hin. cbn [log] in Hin.
      simpl in Hin. intuition discriminate. }
    destruct (exists_ w1 inp) eqn:Eex.
    2:{ rewrite (main_rejects_input args w w1 Emk (or_introl Eex)) in Hin.
        simpl in Hin. intuition discriminate. }
    destruct (String.eqb_spec (Str.lower (suffix inp)) ".pdf") as [Es|Es].
    2:{ rewrite (main_rejects_input args w w1 Emk (or_intror Es)) in Hin.
        simpl in Hin. intuition discriminate. }
    exists w1. repeat split; auto.
    destruct (main_compresses args w w1 Emk Eex Es)
      as (tail & Hlog & Hq & _).
    rewrite Hlog in Hin.
    apply in_app_or in Hin as [Hin|Hin];
      [simpl in Hin; intuition discriminate|].
    apply in_app_or in Hin as [Hin|Hin]; [exact Hin|].
    rewrite forallb_forall in Hq. specialize (Hq _ Hin). discriminate Hq.
  - intros (w1 & Emk & Eex & Es & Hin).
    destruct (main_compresses args w w1 Emk Eex Es) as (tail & Hlog & _).
    rewrite Hlog. apply in_or_app. right. apply in_or_app. left. exact Hin.
Qed.

Lemma of_int_to_int (d : Z) : Str.to_int (Str.of_int d) = Some d.
Proof.
  unfold Str.to_int, Str.of_int. rewrite NilZero.isi.
  - cbn [option_map]. rewrite DecimalZ.of_to. reflexivity.
  - destruct d; cbn; try discriminate.
    intros [= Hp]. exact (DecimalPos.Unsigned.to_uint_nonnil _ Hp).
  - destruct d; cbn; try discriminate.
    intros [= Hp]. exact (DecimalPos.Unsigned.to_uint_nonnil _ Hp).
Qed.

Lemma append_assoc (a b c : string) :
  ((a ++ b) ++ c)%string = (a ++ b ++ c)%string.
Proof. induction a as [|x a IH]; simpl; [reflexivity | rewrite IH; reflexivity]. Qed.

Lemma append_nil_r (a : string) : (a ++ "")%string = a.
Proof. induction a as [|x a IH]; simpl; [reflexivity | rewrite IH; reflexivity]. Qed.

(** The message of the [RuntimeError] shows both stripped streams. *)
Lemma gs_failed_msg_contains (r : CompletedProcess) :
  Str.contains (gs_failed_msg r) (Str.strip (stderr r))
  /\ Str.contains (gs_failed_msg r) (Str.strip (stdout r)).
Proof.
  unfold gs_failed_msg, Str.contains. split.
  - exists ("Ghostscript failed." ++ LF ++ "STDERR:" ++ LF)%string,
           (LF ++ LF ++ "STDOUT:" ++ LF ++ Str.strip (stdout r))%string.
    rewrite !append_assoc. reflexivity.
  - exists ("Ghostscript failed." ++ LF ++ "STDERR:" ++ LF
            ++ Str.strip (stderr r) ++ LF ++ LF ++ "STDOUT:" ++ LF)%string,
           ""%string.
    rewrite append_nil_r, !append_assoc. reflexivity.
Qed.

(** When the parent directories of the output cannot be created, or when
    after their creation the input is not there or has another extension
    than [.pdf] in any letter case, [main] ends with a non-zero exit status
    and has neither searched for the engine nor spawned it. *)
Lemma main_aborts_before_compress {H : Host} (args : Namespace) (w : world) :
  let inp := resolve w (args_input args) in
  let out := resolve w (args_output args) in
  match mkdir_parents w (parent out) with
  | inl _ => True
  | inr w1 =>
      exists_ w1 inp = false \/ Str.lower (suffix inp) <> ".pdf"%string
  end ->
  exit_status (value (main args w)) <> 0
  /\ filter is_which (log (main args w)) = []
  /\ filter is_run (log (main args w)) = []
  /\ (forall w1, mkdir_parents w (parent out) = inr w1 ->
                 value (main args w)
                 = Raise (SystemExit
                            ("Input must be an existing PDF: " ++ str inp))).
Proof.
  intros inp out.
  pose proof (main_mkdir_fails args w) as Hfail.
  pose proof (main_rejects_input args w) as Hrej.
  cbv zeta in Hfail, Hrej. fold inp out in Hfail, Hrej.
  destruct (mkdir_parents w (parent out)) as [msg|w1].
  - intros _. rewrite (Hfail msg eq_refl). cbn.
    repeat split; discriminate.
  - intros Hbad. rewrite (Hrej w1 eq_refl Hbad). cbn.
    repeat split; discriminate.
Qed.

(** * The claims *)

(** ** C1 *)

(** C1.  For every valid preset (one of the five names in any letter
    case) and any input and output paths, once the locator has returned
    the engine executable [gs], [compress_pdf] without a target resolution
    spawns one process and its argument list is, in this order: the
    executable, the device selector, the compatibility level 1.4, the
    preset token, the no-pause, batch and quiet flags, the duplicate-image
    flag, the two font flags, the output-file flag and, right after it,
    the input path. *)
Theorem C1_command_without_dpi {H : Host} (w : world)
    (input_pdf output_pdf : Path) (preset name : string)
    (gs_path : option string) (gs : string) :
  In name preset_names ->
  Str.eq_nocase preset name = true ->
  value (find_gs gs_path w) = Ok gs ->
  exists done,
    filter is_run
      (log (compress_pdf input_pdf output_pdf preset None gs_path w)) =
    [ EvRun
        [ gs;
          "-sDEVICE=pdfwrite";
          "-dCompatibilityLevel=1.4";
          ("-dPDFSETTINGS=/" ++ name)%string;
          "-dNOPAUSE"; "-dBATCH"; "-dQUIET";
          "-dDetectDuplicateImages=true";
          "-dCompressFonts=true"; "-dSubsetFonts=true";
          ("-sOutputFile=" ++ str output_pdf)%string;
          str input_pdf ]
        done ].
Proof.
  intros Hin Heq Hgs.
  pose proof (dict_get_valid preset name Hin Heq) as Htok.
  rewrite (compress_pdf_runs _ _ _ _ _ _ _ _ Hgs Htok). cbv zeta.
  rewrite build_cmd_shape.
  destruct (find_gs_spawns_nothing gs_path w) as [Hq _].
  destruct (run w _) as [msg|[r w']]; cbn [log];
    rewrite filter_app, Hq; eexists; reflexivity.
Qed.

Lemma C1_witness :
  exists done,
    filter is_run
      (log (compress_pdf (H := Demo.host) (MkPath "/home/u/doc.pdf")
                         (MkPath "/home/u/out/small.pdf") "eBook" None None
                         Demo.installed)) =
    [ EvRun
        [ "/usr/bin/gs"; "-sDEVICE=pdfwrite"; "-dCompatibilityLevel=1.4";
          "-dPDFSETTINGS=/ebook"; "-dNOPAUSE"; "-dBATCH"; "-dQUIET";
          "-dDetectDuplicateImages=true"; "-dCompressFonts=true";
          "-dSubsetFonts=true"; "-sOutputFile=/home/u/out/small.pdf";
          "/home/u/doc.pdf" ]
        done ].
Proof.
  apply (C1_command_without_dpi (H := Demo.host) Demo.installed
           (MkPath "/home/u/doc.pdf") (MkPath "/home/u/out/small.pdf")
           "eBook" "ebook" None "/usr/bin/gs").
  - simpl. tauto.
  - reflexivity.
  - reflexivity.
Defined.

(** ** C2 *)



(** ** C3 *)

(** C3, as stated, fails: on a machine where the engine cannot be found,
    the unknown preset [bogus] ends in the locator's [FileNotFoundError],
    not in a [ValueError]. *)
Lemma C3_counterexample :
  ~ valid_preset "bogus"
  /\ value (compress_pdf (H := Demo.host) (MkPath "/home/u/doc.pdf")
                         (MkPath "/home/u/out.pdf") "bogus" None None
                         Demo.bare)
     = Raise (FileNotFoundError gs_not_found_msg)
  /\ forall msg,
       value (compress_pdf (H := Demo.host) (MkPath "/home/u/doc.pdf")
                           (MkPath "/home/u/out.pdf") "bogus" None None
                           Demo.bare)
       <> Raise (ValueError msg).
Proof.
  split; [exact bogus_invalid|]. split; [reflexivity|].
  intros msg. vm_compute. discriminate.
Qed.

(** C3, amended.  For every preset string that matches none of the five
    names in any letter case, [compress_pdf] spawns no process; when the
    locator has returned an executable it raises a [ValueError] whose
    message names the preset and lists the five choices; when the locator
    fails, that failure is what the call raises. *)
Theorem C3_unknown_preset {H : Host} (w : world) (input_pdf output_pdf : Path)
    (preset : string) (dpi : option Z) (gs_path : option string) :
  ~ valid_preset preset ->
  filter is_run (log (compress_pdf input_pdf output_pdf preset dpi gs_path w))
    = []
  /\ (forall gs, value (find_gs gs_path w) = Ok gs ->
        value (compress_pdf input_pdf output_pdf preset dpi gs_path w)
        = Raise (ValueError
                   ("Unknown preset '" ++ preset
                    ++ "'. Choose: screen, ebook, printer, prepress, default")))
  /\ (forall e, value (find_gs gs_path w) = Raise e ->
        value (compress_pdf input_pdf output_pdf preset dpi gs_path w)
        = Raise e).
Proof.
  intros Hnv. pose proof (dict_get_invalid preset Hnv) as Hnone.
  destruct (find_gs_spawns_nothing gs_path w) as [Hq _].
  split; [|split].
  - destruct (value (find_gs gs_path w)) as [gs|e] eqn:Hgs.
    + rewrite (compress_pdf_unknown_preset _ _ _ _ _ _ _ Hgs Hnone). exact Hq.
    + rewrite (compress_pdf_locator_fails _ _ _ _ _ _ _ Hgs). exact Hq.
  - intros gs Hgs.
    rewrite (compress_pdf_unknown_preset _ _ _ _ _ _ _ Hgs Hnone). reflexivity.
  - intros e Hgs.
    rewrite (compress_pdf_locator_fails _ _ _ _ _ _ _ Hgs). reflexivity.
Qed.

Lemma C3_witness :
  value (compress_pdf (H := Demo.host) (MkPath "/home/u/doc.pdf")
                      (MkPath "/home/u/out.pdf") "bogus" None None
                      Demo.installed)
  = Raise (ValueError
             "Unknown preset 'bogus'. Choose: screen, ebook, printer, prepress, default").
Proof.
  refine (proj1 (proj2 (C3_unknown_preset (H := Demo.host) Demo.installed
                          (MkPath "/home/u/doc.pdf") (MkPath "/home/u/out.pdf")
                          "bogus" None None bogus_invalid))
                "/usr/bin/gs" _).
  reflexivity.
Defined.

(** ** C4 *)



(** ** C5 *)

(** C5.  Each of the five preset names is the key of exactly one entry of
    [QUALITY_MAP]; written in any letter case it is looked up to the token
    of that entry; and two spellings of the same name, whatever their
    case, are looked up to the same token. *)
Theorem C5_preset_mapping (name : string) :
  In name preset_names ->
  filter (fun kv => String.eqb (fst kv) name) QUALITY_MAP
    = [(name, ("/" ++ name)%string)]
  /\ (forall s, Str.eq_nocase s name = true ->
                dict_get QUALITY_MAP (Str.lower s) = Some ("/" ++ name)%string)
  /\ (forall s1 s2,
         Str.eq_nocase s1 name = true -> Str.eq_nocase s2 name = true ->
         dict_get QUALITY_MAP (Str.lower s1)
         = dict_get QUALITY_MAP (Str.lower s2)).
Proof.
  intros Hin. split; [|split].
  - simpl in Hin. destruct Hin as [<-|[<-|[<-|[<-|[<-|[]]]]]]; reflexivity.
  - intros s Hs. apply dict_get_valid; assumption.
  - intros s1 s2 H1 H2.
    rewrite (dict_get_valid s1 name Hin H1), (dict_get_valid s2 name Hin H2).
    reflexivity.
Qed.

Lemma C5_witness :
  dict_get QUALITY_MAP (Str.lower "PrePress") = Some "/prepress"
  /\ dict_get QUALITY_MAP (Str.lower "PREPRESS")
     = dict_get QUALITY_MAP (Str.lower "prepress").
Proof.
  assert (Hin : In "prepress"%string preset_names) by (simpl; tauto).
  destruct (C5_preset_mapping "prepress" Hin) as (_ & Hget & Hsame).
  split.
  - apply Hget. reflexivity.
  - apply Hsame; reflexivity.
Defined.

(** ** C6 *)




(** ** C7 *)


(** ** C8 *)

(** C8: the code misses a case.  The input [/home/u/a/x.pdf] does not
    exist when the program is started with the output
    [/home/u/a/x.pdf/out.pdf].  [main] first creates the parent
    directories of the output, among them a directory [/home/u/a/x.pdf];
    the check of the input then finds that path, with the right
    extension, and [compress_pdf] is called and spawns the engine. *)
Theorem C8_input_made_by_mkdir :
  let args := Demo.cli "/home/u/a/x.pdf" "/home/u/a/x.pdf/out.pdf" "ebook"
                       None None in
  exists_ (Host := Demo.host) Demo.failing (MkPath "/home/u/a/x.pdf") = false
  /\ log (main (H := Demo.host) args Demo.failing)
     = [ EvResolve (MkPath "/home/u/a/x.pdf") (MkPath "/home/u/a/x.pdf");
         EvResolve (MkPath "/home/u/a/x.pdf/out.pdf")
                   (MkPath "/home/u/a/x.pdf/out.pdf");
         EvMkdir (MkPath "/home/u/a/x.pdf") None;
         EvExists (MkPath "/home/u/a/x.pdf") true;
         EvWhich "gswin64c" None; EvWhich "gswin32c" None;
         EvWhich "gs" (Some "/usr/bin/gs");
         EvRun [ "/usr/bin/gs"; "-sDEVICE=pdfwrite";
                 "-dCompatibilityLevel=1.4"; "-dPDFSETTINGS=/ebook";
                 "-dNOPAUSE"; "-dBATCH"; "-dQUIET";
                 "-dDetectDuplicateImages=true"; "-dCompressFonts=true";
                 "-dSubsetFonts=true";
                 "-sOutputFile=/home/u/a/x.pdf/out.pdf";
                 "/home/u/a/x.pdf" ]
               (Some {| returncode := 1; stdout := " ";
                        stderr := "error: corrupt xref" ++ LF |}) ]
  /\ value (main (H := Demo.host) args Demo.failing)
     = Raise (RuntimeError
                ("Ghostscript failed." ++ LF ++ "STDERR:" ++ LF
                 ++ "error: corrupt xref" ++ LF ++ LF ++ "STDOUT:" ++ LF)).
Proof. cbv zeta. split; [|split]; reflexivity. Qed.

(** ** C9 *)

(** C9, as stated, fails: with an existing input and no engine on the
    machine, [main] fails in the locator, after it has created the
    directory [/home/u/out] that was not there before. *)
Lemma C9_counterexample :
  let args := Demo.cli "/home/u/doc.pdf" "/home/u/out/small.pdf" "ebook"
                       None None in
  let om := main (H := Demo.host) args Demo.bare in
  value om = Raise (FileNotFoundError gs_not_found_msg)
  /\ filter is_fs_write (log om) = [EvMkdir (MkPath "/home/u/out") None]
  /\ exists_ (Host := Demo.host) Demo.bare (MkPath "/home/u/out") = false
  /\ exists_ (Host := Demo.host) (final om) (MkPath "/home/u/out") = true.
Proof. cbv zeta. repeat split; reflexivity. Qed.

(** C9, amended.  [compress_pdf] asks for no change of the filesystem on
    any path: it only looks things up and spawns at most one process,
    exactly one when it returns normally, and when it spawns none the
    world is as it was.  [main] asks for one change, the creation of the
    parent directories of the output, which it does before it calls
    [compress_pdf] and which stays when the call then fails; it spawns at
    most one process, and exactly one when it returns normally. *)
Theorem C9_side_effects {H : Host} :
  (forall (w : world) input_pdf output_pdf preset dpi gs_path,
      let oc := compress_pdf input_pdf output_pdf preset dpi gs_path w in
      filter is_fs_write (log oc) = []
      /\ (List.length (filter is_run (log oc)) <= 1)%nat
      /\ (value oc = Ok tt -> List.length (filter is_run (log oc)) = 1%nat)
      /\ (filter is_run (log oc) = [] -> final oc = w))
  /\ (forall (w : world) (args : Namespace),
        let inp := resolve w (args_input args) in
        let out := resolve w (args_output args) in
        let om := main args w in
        exists err rest,
          log om = [ EvResolve (args_input args) inp;
                     EvResolve (args_output args) out;
                     EvMkdir (parent out) err ] ++ rest
          /\ filter is_fs_write rest = []
          /\ (List.length (filter is_run rest) <= 1)%nat
          /\ (value om = Ok tt ->
              List.length (filter is_run rest) = 1%nat)).
Proof.
  split.
  - intros. apply compress_pdf_effects.
  - intros w args inp out om. unfold om. clear om.
    pose proof (main_mkdir_fails args w) as Hfail.
    pose proof (main_rejects_input args w) as Hrej.
    pose proof (main_compresses args w) as Hcomp.
    cbv zeta in Hfail, Hrej, Hcomp. fold inp out in Hfail, Hrej, Hcomp.
    destruct (mkdir_parents w (parent out)) as [msg|w1] eqn:Emk.
    { rewrite (Hfail msg eq_refl). cbn [value log].
      exists (Some msg), []. repeat split; auto; discriminate. }
    destruct (exists_ w1 inp) eqn:Eex.
    2:{ rewrite (Hrej w1 eq_refl (or_introl Eex)).
        cbn [value log]. rewrite Eex.
        exists None, [EvExists inp false]. repeat split; auto; discriminate. }
    destruct (String.eqb_spec (Str.lower (suffix inp)) ".pdf") as [Es|Es].
    2:{ rewrite (Hrej w1 eq_refl (or_intror Es)).
        cbn [value log]. rewrite Eex.
        exists None, [EvExists inp true]. repeat split; auto; discriminate. }
    destruct (Hcomp w1 eq_refl Eex Es) as (tail & Hlog & Hq & _ & Hok).
    destruct (quiet_filters tail Hq) as [Hqr Hqw].
    destruct (compress_pdf_effects inp out (args_preset args) (args_dpi args)
                (args_gs args) w1) as (Hw & Hle & Hone & _).
    exists None. eexists. split; [rewrite Hlog; reflexivity|].
    cbn [app filter is_fs_write is_run].
    rewrite !filter_app, Hqr, Hqw, Hw, !app_nil_r.
    repeat split; auto.
Qed.

Lemma C9_witness :
  List.length
    (filter is_run
       (log (compress_pdf (H := Demo.host) (MkPath "/home/u/doc.pdf")
                          (MkPath "/home/u/out.pdf") "ebook" None None
                          Demo.installed))) = 1%nat.
Proof.
  refine (proj1 (proj2 (proj2 (proj1 (C9_side_effects (H := Demo.host))
            Demo.installed (MkPath "/home/u/doc.pdf")
            (MkPath "/home/u/out.pdf") "ebook" None None))) _).
  reflexivity.
Defined.

(** ** C10 *)



(** * Further properties of the code *)

(** ** Text and table *)



Lemma of_int_inj (d d' : Z) : Str.of_int d = Str.of_int d' -> d = d'.
Proof.
  intros E. pose proof (of_int_to_int d) as Hd. rewrite E in Hd.
  rewrite of_int_to_int in Hd. congruence.
Qed.

Lemma valid_preset_get (preset : string) :
  valid_preset preset ->
  exists tok, dict_get QUALITY_MAP (Str.lower preset) = Some tok.
Proof.
  intros [name [Hin Heq]]. eexists. apply (dict_get_valid _ _ Hin Heq).
Qed.

(** ** The runner and the command line, case by case *)

(** How [compress_pdf] ends, and why. *)
Lemma compress_pdf_cases {H : Host} i o preset dpi gs_path (w : world) :
  let oc := compress_pdf i o preset dpi gs_path w in
  (exists msg, value (find_gs gs_path w) = Raise (FileNotFoundError msg)
               /\ oc = Outcome (Raise (FileNotFoundError msg)) w
                               (log (find_gs gs_path w)))
  \/ (exists gs, value (find_gs gs_path w) = Ok gs
                 /\ ~ valid_preset preset
                 /\ oc = Outcome (Raise (ValueError (unknown_preset_msg preset)))
                                 w (log (find_gs gs_path w)))
  \/ (exists gs tok msg,
         value (find_gs gs_path w) = Ok gs
         /\ dict_get QUALITY_MAP (Str.lower preset) = Some tok
         /\ run w (build_cmd gs tok i o dpi) = inl msg
         /\ oc = Outcome (Raise (OSError msg)) w
                         (log (find_gs gs_path w)
                          ++ [EvRun (build_cmd gs tok i o dpi) None]))
  \/ (exists gs tok r w',
         value (find_gs gs_path w) = Ok gs
         /\ dict_get QUALITY_MAP (Str.lower preset) = Some tok
         /\ run w (build_cmd gs tok i o dpi) = inr (r, w')
         /\ oc = Outcome (if returncode r =? 0 then Ok tt
                          else Raise (RuntimeError (gs_failed_msg r)))
                         w'
                         (log (find_gs gs_path w)
                          ++ [EvRun (build_cmd gs tok i o dpi) (Some r)])).
Proof.
  intros oc. unfold oc.
  destruct (value (find_gs gs_path w)) as [gs|e] eqn:Hgs.
  2:{ left. destruct (find_gs_raises _ _ _ Hgs) as [msg ->]. exists msg.
      split; [reflexivity|]. apply compress_pdf_locator_fails, Hgs. }
  right.
  destruct (dict_get QUALITY_MAP (Str.lower preset)) as [tok|] eqn:Htok.
  2:{ left. exists gs. split; [reflexivity|]. split.
      - intros Hv. destruct (valid_preset_get _ Hv) as [t Ht]. congruence.
      - apply (compress_pdf_unknown_preset _ _ _ _ _ _ _ Hgs Htok). }
  right.
  pose proof (compress_pdf_runs i o preset dpi gs_path w gs tok Hgs Htok)
    as Hrun.
  cbv zeta in Hrun.
  destruct (run w (build_cmd gs tok i o dpi)) as [msg|[r w']] eqn:Er.
  - left. exists gs, tok, msg. auto.
  - right. exists gs, tok, r, w'. auto.
Qed.

(** A normal return of [compress_pdf] is one completed spawn with status
    0, made last. *)
Lemma compress_pdf_ok_inv {H : Host} i o preset dpi gs_path (w : world) :
  value (compress_pdf i o preset dpi gs_path w) = Ok tt ->
  exists cmd r,
    log (compress_pdf i o preset dpi gs_path w)
    = log (find_gs gs_path w) ++ [EvRun cmd (Some r)]
    /\ returncode r = 0.
Proof.
  intros Hv.
  destruct (compress_pdf_cases i o preset dpi gs_path w)
    as [(m & _ & E)|[(gs & _ & _ & E)|[(gs & tok & m & _ & _ & _ & E)
       |(gs & tok & r & w' & _ & _ & _ & E)]]];
    rewrite E in Hv |- *; cbn [value log] in *; try discriminate Hv.
  exists (build_cmd gs tok i o dpi), r. split; [reflexivity|].
  destruct (returncode r =? 0) eqn:Ez; [|discriminate Hv].
  apply Z.eqb_eq, Ez.
Qed.

(** What [main] does once [compress_pdf] has returned. *)
Lemma main_after_compress {H : Host} (args : Namespace) (w w1 : world) :
  let inp := resolve w (args_input args) in
  let out := resolve w (args_output args) in
  let oc := compress_pdf inp out (args_preset args) (args_dpi args)
                         (args_gs args) w1 in
  let pre := [ EvResolve (args_input args) inp;
               EvResolve (args_output args) out;
               EvMkdir (parent out) None; EvExists inp true ] in
  mkdir_parents w (parent out) = inr w1 ->
  exists_ w1 inp = true -> Str.lower (suffix inp) = ".pdf"%string ->
  value oc = Ok tt ->
  main args w =
  match stat_size (final oc) inp with
  | inl m =>
      Outcome (Raise (OSError m)) (final oc)
              (pre ++ log oc ++ [EvStat inp None])
  | inr before =>
      match stat_size (final oc) out with
      | inl m =>
          Outcome (Raise (OSError m)) (final oc)
                  (pre ++ log oc ++ [EvStat inp (Some before); EvStat out None])
      | inr after =>
          if before =? 0 then
            Outcome (Raise ZeroDivisionError) (final oc)
                    (pre ++ log oc
                     ++ [ EvStat inp (Some before); EvStat out (Some after);
                          EvPrint ("Saved: " ++ str out) ])
          else
            Outcome (Ok tt) (final oc)
                    (pre ++ log oc
                     ++ [ EvStat inp (Some before); EvStat out (Some after);
                          EvPrint ("Saved: " ++ str out);
                          EvPrint (format_sizes before after) ])
      end
  end.
Proof.
  intros inp out oc pre E He Hs Hv.
  unfold main, bind, do_resolve, do_mkdir, do_exists.
  cbn [value final log]. fold inp out. rewrite E. cbn [value final log].
  rewrite He, Hs, String.eqb_refl. cbn [negb orb]. fold oc.
  rewrite Hv. cbn [value final log]. unfold do_stat, print.
  destruct (stat_size (final oc) inp) as [m|before]; cbn [value final log].
  - unfold pre. f_equal.
  - destruct (stat_size (final oc) out) as [m|after]; cbn [value final log].
    + unfold pre. f_equal.
    + destruct (before =? 0); cbn [raise value final log];
        unfold pre; f_equal.
Qed.

(** What [main] does when [compress_pdf] raises. *)
Lemma main_compress_raises {H : Host} (args : Namespace) (w w1 : world) e :
  let inp := resolve w (args_input args) in
  let out := resolve w (args_output args) in
  let oc := compress_pdf inp out (args_preset args) (args_dpi args)
                         (args_gs args) w1 in
  mkdir_parents w (parent out) = inr w1 ->
  exists_ w1 inp = true -> Str.lower (suffix inp) = ".pdf"%string ->
  value oc = Raise e ->
  value (main args w) = Raise e
  /\ log (main args w)
     = [ EvResolve (args_input args) inp; EvResolve (args_output args) out;
         EvMkdir (parent out) None; EvExists inp true ] ++ log oc.
Proof.
  intros inp out oc E He Hs Hv.
  destruct (main_compresses args w w1 E He Hs) as (tail & Hlog & _ & Hr & _).
  destruct (Hr e Hv) as (Hval & _ & ->). split; [exact Hval|].
  rewrite Hlog, app_nil_r. reflexivity.
Qed.

(** The four ways through [main]. *)
Lemma main_cases {H : Host} (args : Namespace) (w : world) :
  let inp := resolve w (args_input args) in
  let out := resolve w (args_output args) in
  let pre := [ EvResolve (args_input args) inp;
               EvResolve (args_output args) out;
               EvMkdir (parent out) None; EvExists inp true ] in
  (exists msg, mkdir_parents w (parent out) = inl msg
               /\ value (main args w) = Raise (OSError msg)
               /\ filter is_run (log (main args w)) = []
               /\ (forall line, ~ In (EvPrint line) (log (main args w))))
  \/ (exists w1, mkdir_parents w (parent out) = inr w1
                 /\ (exists_ w1 inp = false
                     \/ Str.lower (suffix inp) <> ".pdf"%string)
                 /\ value (main args w) = Raise (SystemExit (bad_input_msg inp))
                 /\ filter is_run (log (main args w)) = []
                 /\ (forall line, ~ In (EvPrint line) (log (main args w))))
  \/ (exists w1 e, mkdir_parents w (parent out) = inr w1
                   /\ exists_ w1 inp = true
                   /\ Str.lower (suffix inp) = ".pdf"%string
                   /\ value (compress_pdf inp out (args_preset args)
                                          (args_dpi args) (args_gs args) w1)
                      = Raise e
                   /\ value (main args w) = Raise e
                   /\ log (main args w)
                      = pre ++ log (compress_pdf inp out (args_preset args)
                                                 (args_dpi args) (args_gs args)
                                                 w1))
  \/ (exists w1 cmd r, mkdir_parents w (parent out) = inr w1
                   /\ exists_ w1 inp = true
                   /\ Str.lower (suffix inp) = ".pdf"%string
                   /\ returncode r = 0
                   /\ let oc := compress_pdf inp out (args_preset args)
                                             (args_dpi args) (args_gs args) w1
                      in
                      value oc = Ok tt
                      /\ log oc = log (find_gs (args_gs args) w1)
                                  ++ [EvRun cmd (Some r)]
                      /\ main args w =
                         match stat_size (final oc) inp with
                         | inl m =>
                             Outcome (Raise (OSError m)) (final oc)
                                     (pre ++ log oc ++ [EvStat inp None])
                         | inr before =>
                             match stat_size (final oc) out with
                             | inl m =>
                                 Outcome (Raise (OSError m)) (final oc)
                                         (pre ++ log oc
                                          ++ [ EvStat inp (Some before);
                                               EvStat out None ])
                             | inr after =>
                                 if before =? 0 then
                                   Outcome (Raise ZeroDivisionError) (final oc)
                                     (pre ++ log oc
                                      ++ [ EvStat inp (Some before);
                                           EvStat out (Some after);
                                           EvPrint ("Saved: " ++ str out) ])
                                 else
                                   Outcome (Ok tt) (final oc)
                                     (pre ++ log oc
                                      ++ [ EvStat inp (Some before);
                                           EvStat out (Some after);
                                           EvPrint ("Saved: " ++ str out);
                                           EvPrint (format_sizes before after) ])
                             end
                         end).
Proof.
  intros inp out pre.
  pose proof (main_mkdir_fails args w) as Hfail.
  pose proof (main_rejects_input args w) as Hrej.
  pose proof (main_compress_raises args w) as Hraise.
  pose proof (main_after_compress args w) as Hafter.
  cbv zeta in Hfail, Hrej, Hraise, Hafter.
  fold inp out in Hfail, Hrej, Hraise, Hafter.
  destruct (mkdir_parents w (parent out)) as [msg|w1].
  { left. exists msg. rewrite (Hfail msg eq_refl). cbn [value log].
    repeat split. intros line Hin. simpl in Hin. intuition discriminate. }
  right.
  assert (Hbadcase :
            exists_ w1 inp = false \/ Str.lower (suffix inp) <> ".pdf"%string ->
            exists w2, (inr w1 : string + world) = inr w2
              /\ (exists_ w2 inp = false
                  \/ Str.lower (suffix inp) <> ".pdf"%string)
              /\ value (main args w) = Raise (SystemExit (bad_input_msg inp))
              /\ filter is_run (log (main args w)) = []
              /\ (forall line, ~ In (EvPrint line) (log (main args w)))).
  { intros Hbad. exists w1. rewrite (Hrej w1 eq_refl Hbad). cbn [value log].
    repeat split; auto. intros line Hin. simpl in Hin.
    intuition discriminate. }
  destruct (exists_ w1 inp) eqn:Eex; [|left; apply Hbadcase; auto].
  destruct (String.eqb_spec (Str.lower (suffix inp)) ".pdf") as [Es|Es];
    [|left; apply Hbadcase; auto].
  right. clear Hbadcase.
  destruct (value (compress_pdf inp out (args_preset args) (args_dpi args)
                                (args_gs args) w1)) as [[]|e] eqn:Hv.
  - right.
    destruct (compress_pdf_ok_inv _ _ _ _ _ _ Hv) as (cmd & r & Hlog & Hz).
    exists w1, cmd, r. repeat split; auto.
  - left. exists w1, e. destruct (Hraise w1 e eq_refl Eex Es Hv) as [Hval Hlog].
    repeat split; auto.
Qed.

Lemma compress_pdf_no_print {H : Host} i o preset dpi gs_path (w : world)
    (line : string) :
  ~ In (EvPrint line) (log (compress_pdf i o preset dpi gs_path w)).
Proof.
  assert (Hgs : ~ In (EvPrint line) (log (find_gs gs_path w))).
  { intros Hin. destruct (find_gs_quiet gs_path w) as [_ Hq].
    rewrite Forall_forall in Hq. specialize (Hq _ Hin). discriminate Hq. }
  intros Hin.
  destruct (compress_pdf_cases i o preset dpi gs_path w)
    as [(m & _ & E)|[(gs & _ & _ & E)|[(gs & tok & m & _ & _ & _ & E)
       |(gs & tok & r & w' & _ & _ & _ & E)]]];
    rewrite E in Hin; cbn [log] in Hin;
    try (apply in_app_or in Hin as [Hin|Hin]);
    try (apply Hgs, Hin); simpl in Hin; intuition discriminate.
Qed.

Lemma compress_pdf_raises_own {H : Host} i o preset dpi gs_path (w : world) e :
  value (compress_pdf i o preset dpi gs_path w) = Raise e ->
  e <> ZeroDivisionError /\ forall msg, e <> SystemExit msg.
Proof.
  intros Hv.
  destruct (compress_pdf_cases i o preset dpi gs_path w)
    as [(m & _ & E)|[(gs & _ & _ & E)|[(gs & tok & m & _ & _ & _ & E)
       |(gs & tok & r & w' & _ & _ & _ & E)]]];
    rewrite E in Hv; cbn [value] in Hv;
    try (destruct (returncode r =? 0)); try discriminate Hv;
    injection Hv as <-; split; try intros msg; discriminate.
Qed.

(** ** X1 *)

(** X1.  When [main] returns normally, its last five calls are, in this
    order: the one spawn of the engine, which ended with status 0; the
    size of the input; the size of the output; the line [Saved: <out>]
    with the resolved output path; and the line with the two sizes.  The
    size of the input was not 0. *)
Theorem X1_main_success_report {H : Host} (args : Namespace) (w : world) :
  let inp := resolve w (args_input args) in
  let out := resolve w (args_output args) in
  value (main args w) = Ok tt ->
  exists front cmd r before after,
    log (main args w)
    = front ++ [ EvRun cmd (Some r);
                 EvStat inp (Some before); EvStat out (Some after);
                 EvPrint ("Saved: " ++ str out);
                 EvPrint (format_sizes before after) ]
    /\ filter is_run front = []
    /\ returncode r = 0
    /\ before <> 0.
Proof.
  intros inp out Hv.
  pose proof (main_cases args w) as Hcases. cbv zeta in Hcases.
  fold inp out in Hcases. destruct Hcases
    as [(m & _ & E & _)|[(w1 & _ & _ & E & _)
       |[(w1 & e & _ & _ & _ & _ & E & _)
        |(w1 & cmd & r & _ & _ & _ & Hz & _ & Hlog & E)]]];
    try (rewrite E in Hv; discriminate Hv).
  rewrite E in Hv |- *.
  destruct (stat_size _ inp) as [m|before]; [discriminate Hv|].
  destruct (stat_size _ out) as [m|after]; [discriminate Hv|].
  destruct (before =? 0) eqn:Eb; [discriminate Hv|].
  cbn [log]. rewrite Hlog.
  exists ([ EvResolve (args_input args) inp; EvResolve (args_output args) out;
            EvMkdir (parent out) None; EvExists inp true ]
          ++ log (find_gs (args_gs args) w1)), cmd, r, before, after.
  split; [|split; [|split]].
  - rewrite <- !app_assoc. reflexivity.
  - rewrite filter_app, (proj1 (find_gs_spawns_nothing _ _)). reflexivity.
  - exact Hz.
  - apply Z.eqb_neq, Eb.
Qed.

Lemma X1_witness :
  exists front cmd r before after,
    log (main (H := Demo.host)
              (Demo.cli "/home/u/doc.pdf" "/home/u/out/small.pdf" "ebook"
                        None None)
              Demo.installed)
    = front ++ [ EvRun cmd (Some r);
                 EvStat (MkPath "/home/u/doc.pdf") (Some before);
                 EvStat (MkPath "/home/u/out/small.pdf") (Some after);
                 EvPrint "Saved: /home/u/out/small.pdf";
                 EvPrint (Demo.sizes_line before after) ]
    /\ filter is_run front = []
    /\ returncode r = 0
    /\ before <> 0.
Proof.
  apply (X1_main_success_report (H := Demo.host)
           (Demo.cli "/home/u/doc.pdf" "/home/u/out/small.pdf" "ebook"
                     None None)
           Demo.installed).
  reflexivity.
Defined.

(** ** X2 *)

(** X2.  An empty input file makes [main] fail after the work is done.
    If the input is there with a [.pdf] extension, [compress_pdf] returns
    normally and the input then has size 0 while the output can be
    measured, [main] raises [ZeroDivisionError].  Whenever [main] raises
    it, the engine has run with status 0, the input had size 0, and the
    line [Saved: <out>] is the last thing done: the line with the sizes is
    not printed. *)
Theorem X2_empty_input_division {H : Host} (args : Namespace) (w : world) :
  let inp := resolve w (args_input args) in
  let out := resolve w (args_output args) in
  (forall w1 after,
      let oc := compress_pdf inp out (args_preset args) (args_dpi args)
                             (args_gs args) w1 in
      mkdir_parents w (parent out) = inr w1 ->
      exists_ w1 inp = true ->
      Str.lower (suffix inp) = ".pdf"%string ->
      value oc = Ok tt ->
      stat_size (final oc) inp = inr 0 ->
      stat_size (final oc) out = inr after ->
      value (main args w) = Raise ZeroDivisionError)
  /\ (value (main args w) = Raise ZeroDivisionError ->
      exists front cmd r after,
        log (main args w)
        = front ++ [ EvRun cmd (Some r);
                     EvStat inp (Some 0); EvStat out (Some after);
                     EvPrint ("Saved: " ++ str out) ]
        /\ returncode r = 0).
Proof.
  intros inp out. split.
  - intros w1 after oc Emk Eex Es Hv Hin Hout.
    rewrite (main_after_compress args w w1 Emk Eex Es Hv).
    fold inp out oc. rewrite Hin, Hout. reflexivity.
  - intros Hv.
    pose proof (main_cases args w) as Hcases. cbv zeta in Hcases.
    fold inp out in Hcases. destruct Hcases
      as [(m & _ & E & _)|[(w1 & _ & _ & E & _)
         |[(w1 & e & _ & _ & _ & Hc & E & _)
          |(w1 & cmd & r & _ & _ & _ & Hz & _ & Hlog & E)]]];
      try (rewrite E in Hv; discriminate Hv).
    + rewrite E in Hv. injection Hv as ->.
      destruct (compress_pdf_raises_own _ _ _ _ _ _ _ Hc) as [Hn _].
      contradiction.
    + rewrite E in Hv |- *.
      destruct (stat_size _ inp) as [m|before]; [discriminate Hv|].
      destruct (stat_size _ out) as [m|after]; [discriminate Hv|].
      destruct (before =? 0) eqn:Eb; [|discriminate Hv].
      apply Z.eqb_eq in Eb. subst before.
      cbn [log]. rewrite Hlog.
      exists ([ EvResolve (args_input args) inp;
                EvResolve (args_output args) out;
                EvMkdir (parent out) None; EvExists inp true ]
              ++ log (find_gs (args_gs args) w1)), cmd, r, after.
      split; [|exact Hz]. rewrite <- !app_assoc. reflexivity.
Qed.

Lemma X2_witness :
  value (main (H := Demo.host)
              (Demo.cli "/home/u/empty.pdf" "/home/u/out/small.pdf" "ebook"
                        None None)
              (Demo.with_file Demo.installed "/home/u/empty.pdf" 0))
  = Raise ZeroDivisionError.
Proof.
  refine (proj1 (X2_empty_input_division (H := Demo.host)
                   (Demo.cli "/home/u/empty.pdf" "/home/u/out/small.pdf"
                             "ebook" None None)
                   (Demo.with_file Demo.installed "/home/u/empty.pdf" 0))
                (Demo.with_dirs
                   (Demo.with_file Demo.installed "/home/u/empty.pdf" 0)
                   ("/home/u/out" :: Demo.dirs Demo.installed))
                500000 _ _ _ _ _ _);
    reflexivity.
Defined.

(** ** X3 *)

(** X3.  [main] prints nothing unless the engine has run to its end with
    status 0 and the sizes of the input and of the output have both been
    read: after a failed or refused run no line is printed. *)
Theorem X3_prints_only_after_success {H : Host} (args : Namespace) (w : world)
    (line : string) :
  let inp := resolve w (args_input args) in
  let out := resolve w (args_output args) in
  In (EvPrint line) (log (main args w)) ->
  exists cmd r before after,
    In (EvRun cmd (Some r)) (log (main args w))
    /\ returncode r = 0
    /\ In (EvStat inp (Some before)) (log (main args w))
    /\ In (EvStat out (Some after)) (log (main args w)).
Proof.
  intros inp out Hin.
  pose proof (main_cases args w) as Hcases. cbv zeta in Hcases.
  fold inp out in Hcases. destruct Hcases
    as [(m & _ & _ & _ & Hnp)|[(w1 & _ & _ & _ & _ & Hnp)
       |[(w1 & e & _ & _ & _ & _ & _ & Hlog)
        |(w1 & cmd & r & _ & _ & _ & Hz & _ & Hlog & E)]]].
  - exfalso. exact (Hnp line Hin).
  - exfalso. exact (Hnp line Hin).
  - exfalso. rewrite Hlog in Hin. apply in_app_or in Hin as [Hin|Hin].
    + simpl in Hin. intuition discriminate.
    + exact (compress_pdf_no_print _ _ _ _ _ _ _ Hin).
  - assert (Hno : forall tail,
               (forall l, ~ In (EvPrint l) tail) ->
               ~ In (EvPrint line)
                    ([ EvResolve (args_input args) inp;
                       EvResolve (args_output args) out;
                       EvMkdir (parent out) None; EvExists inp true ]
                     ++ log (compress_pdf inp out (args_preset args)
                                          (args_dpi args) (args_gs args) w1)
                     ++ tail)).
    { intros tail Ht Hi. apply in_app_or in Hi as [Hi|Hi];
        [simpl in Hi; intuition discriminate|].
      apply in_app_or in Hi as [Hi|Hi];
        [exact (compress_pdf_no_print _ _ _ _ _ _ _ Hi) | exact (Ht _ Hi)]. }
    rewrite E in Hin |- *.
    destruct (stat_size _ inp) as [m|before].
    { exfalso. cbn [log] in Hin. revert Hin. apply Hno.
      intros l Hl. simpl in Hl. intuition discriminate. }
    destruct (stat_size _ out) as [m|after].
    { exfalso. cbn [log] in Hin. revert Hin. apply Hno.
      intros l Hl. simpl in Hl. intuition discriminate. }
    exists cmd, r, before, after. rewrite Hlog.
    destruct (before =? 0); cbn [log];
      (split; [|split; [exact Hz|split]]);
      apply in_or_app; right; apply in_or_app.
    all: try (left; apply in_or_app; right; left; reflexivity).
    all: right; simpl; auto.
Qed.

Lemma X3_witness :
  exists cmd r before after,
    In (EvRun cmd (Some r))
       (log (main (H := Demo.host)
                  (Demo.cli "/home/u/doc.pdf" "/home/u/out/small.pdf" "ebook"
                            None None)
                  Demo.installed))
    /\ returncode r = 0
    /\ In (EvStat (MkPath "/home/u/doc.pdf") (Some before))
          (log (main (H := Demo.host)
                     (Demo.cli "/home/u/doc.pdf" "/home/u/out/small.pdf"
                               "ebook" None None)
                     Demo.installed))
    /\ In (EvStat (MkPath "/home/u/out/small.pdf") (Some after))
          (log (main (H := Demo.host)
                     (Demo.cli "/home/u/doc.pdf" "/home/u/out/small.pdf"
                               "ebook" None None)
                     Demo.installed)).
Proof.
  apply (X3_prints_only_after_success (H := Demo.host)
           (Demo.cli "/home/u/doc.pdf" "/home/u/out/small.pdf" "ebook"
                     None None)
           Demo.installed "Saved: /home/u/out/small.pdf").
  vm_compute. do 10 right. left. reflexivity.
Defined.

(** ** X4 *)



(** ** X5 *)



(** ** X6 *)

(** X6.  The argument list tells the request: two calls build the same
    list only when they agree on the executable, the preset token, the
    input path, the output path and the resolution, present or absent. *)
Theorem X6_build_cmd_injective (gs gs' tok tok' : string)
    (i i' o o' : Path) (dpi dpi' : option Z) :
  build_cmd gs tok i o dpi = build_cmd gs' tok' i' o' dpi' ->
  gs = gs' /\ tok = tok' /\ i = i' /\ o = o' /\ dpi = dpi'.
Proof.
  rewrite !build_cmd_shape. destruct i as [si], i' as [si'], o as [so], o' as [so'].
  cbn [str]. unfold extra_flags.
  destruct dpi as [d|], dpi' as [d'|]; cbn [app]; intros E.
  - injection E as Hgs Htok Hd _ _ Ho Hi.
    apply of_int_inj in Hd. subst. auto.
  - exfalso. discriminate E.
  - exfalso. discriminate E.
  - injection E as Hgs Htok Ho Hi. subst. auto.
Qed.

Lemma X6_witness :
  "/usr/bin/gs"%string = "/usr/bin/gs"%string
  /\ "/ebook"%string = "/ebook"%string
  /\ MkPath "in.pdf" = MkPath "in.pdf"
  /\ MkPath "out.pdf" = MkPath "out.pdf"
  /\ Some 150 = Some 150.
Proof.
  apply (X6_build_cmd_injective "/usr/bin/gs" "/usr/bin/gs" "/ebook" "/ebook"
           (MkPath "in.pdf") (MkPath "in.pdf") (MkPath "out.pdf")
           (MkPath "out.pdf") (Some 150) (Some 150)).
  reflexivity.
Defined.

(** ** X7 *)

(** X7.  Whatever the executable, the token, the paths and the
    resolution, every argument between the executable and the input path
    is an option: it starts with a hyphen.  The input path is the only
    positional argument, and it comes last. *)
Theorem X7_options_before_input (gs tok : string) (i o : Path)
    (dpi : option Z) (a : string) :
  In a (removelast (tl (build_cmd gs tok i o dpi))) ->
  String.prefix "-" a = true.
Proof.
  rewrite build_cmd_shape.
  destruct dpi as [d|]; cbn [app extra_flags tl removelast]; intros Hin;
    repeat (destruct Hin as [<-|Hin]; [reflexivity|]); destruct Hin.
Qed.

Lemma X7_witness : String.prefix "-" "-dGrayImageResolution=72" = true.
Proof.
  apply (X7_options_before_input "gs" "/screen" (MkPath "in.pdf")
           (MkPath "out.pdf") (Some 72)).
  vm_compute. do 12 right. left. reflexivity.
Defined.

(** ** X8 *)

(** X8.  The presets and the tokens are in one-to-one correspondence: two
    presets that are looked up to the same token are the same name up to
    letter case, and the token is that name, in lowercase, after a
    slash. *)
Theorem X8_token_injective (p1 p2 tok : string) :
  dict_get QUALITY_MAP (Str.lower p1) = Some tok ->
  dict_get QUALITY_MAP (Str.lower p2) = Some tok ->
  Str.lower p1 = Str.lower p2
  /\ tok = ("/" ++ Str.lower p1)%string
  /\ Str.eq_nocase p1 (Str.lower p2) = true.
Proof.
  intros H1 H2.
  apply dict_get_QUALITY_MAP in H1 as [Hin1 E1].
  apply dict_get_QUALITY_MAP in H2 as [Hin2 E2].
  assert (E : Str.lower p1 = Str.lower p2).
  { rewrite E1 in E2. injection E2 as E2. exact E2. }
  split; [exact E|]. split; [exact E1|].
  apply lower_eq_nocase; [apply preset_names_lower, Hin2 | exact E].
Qed.

Lemma X8_witness :
  Str.lower "EBook" = Str.lower "ebooK"
  /\ "/ebook"%string = ("/" ++ Str.lower "EBook")%string
  /\ Str.eq_nocase "EBook" (Str.lower "ebooK") = true.
Proof.
  apply (X8_token_injective "EBook" "ebooK" "/ebook"); reflexivity.
Defined.

(** ** X9 *)

(** X9.  The values that the command line admits for [--preset] are the
    five keys of [QUALITY_MAP], in ascending order, and the default
    [ebook] is one of them.  With such a preset [main] never raises the
    [ValueError] for an unknown preset, and every engine it spawns is
    given the preset as [-dPDFSETTINGS=/<preset>]. *)
Theorem X9_cli_presets_accepted {H : Host} (args : Namespace) (w : world) :
  preset_choices = ["default"; "ebook"; "prepress"; "printer"; "screen"]%string
  /\ (forall p, In p preset_choices <-> In p (dict_keys QUALITY_MAP))
  /\ In preset_default preset_choices
  /\ (In (args_preset args) preset_choices ->
      (forall msg, value (main args w) <> Raise (ValueError msg))
      /\ (forall cmd done,
             In (EvRun cmd done) (log (main args w)) ->
             nth_error cmd 3
             = Some ("-dPDFSETTINGS=/" ++ args_preset args)%string)).
Proof.
  split; [reflexivity|]. split; [|split].
  - intros p. cbn. tauto.
  - cbn. tauto.
  - intros Hin.
    assert (Hget : dict_get QUALITY_MAP (Str.lower (args_preset args))
                   = Some ("/" ++ args_preset args)%string).
    { cbn in Hin.
      destruct Hin as [<-|[<-|[<-|[<-|[<-|[]]]]]]; reflexivity. }
    assert (Hvalid : valid_preset (args_preset args)).
    { exists (args_preset args). cbn in Hin. unfold preset_names.
      destruct Hin as [<-|[<-|[<-|[<-|[<-|[]]]]]];
        (split; [simpl; tauto | reflexivity]). }
    split.
    + intros msg Hv.
      pose proof (main_cases args w) as Hcases. cbv zeta in Hcases.
      destruct Hcases
        as [(m & _ & E & _)|[(w1 & _ & _ & E & _)
           |[(w1 & e & _ & _ & _ & Hc & E & _)
            |(w1 & cmd & r & _ & _ & _ & Hz & _ & Hlog & E)]]].
      * rewrite E in Hv. discriminate Hv.
      * rewrite E in Hv. discriminate Hv.
      * rewrite E in Hv. injection Hv as ->.
        destruct (compress_pdf_cases
                    (resolve w (args_input args))
                    (resolve w (args_output args)) (args_preset args)
                    (args_dpi args) (args_gs args) w1)
          as [(m & _ & E')|[(gs & _ & Hnv & _)
             |[(gs & tok & m & _ & _ & _ & E')
              |(gs & tok & r & w' & _ & _ & _ & E')]]];
          try contradiction;
          rewrite E' in Hc; cbn [value] in Hc;
          try (destruct (returncode r =? 0)); discriminate Hc.
      * rewrite E in Hv.
        destruct (stat_size _ _) as [m|before]; [discriminate Hv|].
        destruct (stat_size _ _) as [m|after]; [discriminate Hv|].
        destruct (before =? 0); discriminate Hv.
    + intros cmd done Hrun.
      apply main_run_inv in Hrun as (w1 & _ & _ & _ & Hrun).
      apply compress_pdf_run_inv in Hrun as (gs & tok & _ & Htok & -> & _).
      rewrite Hget in Htok. injection Htok as <-.
      rewrite build_cmd_shape. reflexivity.
Qed.

Lemma X9_witness :
  nth_error
    [ "/usr/bin/gs"; "-sDEVICE=pdfwrite"; "-dCompatibilityLevel=1.4";
      "-dPDFSETTINGS=/printer"; "-dNOPAUSE"; "-dBATCH"; "-dQUIET";
      "-dDetectDuplicateImages=true"; "-dCompressFonts=true";
      "-dSubsetFonts=true"; "-sOutputFile=/home/u/out/small.pdf";
      "/home/u/doc.pdf" ]%string 3
  = Some "-dPDFSETTINGS=/printer"%string.
Proof.
  refine (proj2 (proj2 (proj2 (proj2
            (X9_cli_presets_accepted (H := Demo.host)
               (Demo.cli "/home/u/doc.pdf" "/home/u/out/small.pdf" "printer"
                         None None)
               Demo.installed))) _)
            _ (Some {| returncode := 0; stdout := ""; stderr := "" |}) _).
  - vm_compute. do 3 right. left. reflexivity.
  - vm_compute. do 7 right. left. reflexivity.
Defined.

(** ** X10 *)

(** X10.  Every engine that [main] spawns is given the resolved paths, not
    the paths as typed: its argument list ends with the output-file flag
    for the resolved output and with the resolved input; the list is the
    one [compress_pdf] builds for the resolution of the command line; and
    by then the parent directory of that very output has been created. *)
Theorem X10_engine_gets_resolved_paths {H : Host} (args : Namespace)
    (w : world) (cmd : list string) (done : option CompletedProcess) :
  let inp := resolve w (args_input args) in
  let out := resolve w (args_output args) in
  In (EvRun cmd done) (log (main args w)) ->
  (exists gs tok front,
      cmd = build_cmd gs tok inp out (args_dpi args)
      /\ cmd = gs :: front ++ [ ("-sOutputFile=" ++ str out)%string; str inp ])
  /\ exists before after,
       log (main args w)
       = before ++ EvMkdir (parent out) None :: after
       /\ In (EvRun cmd done) after.
Proof.
  intros inp out Hrun.
  pose proof (proj1 (main_run_inv args w cmd done) Hrun)
    as (w1 & Emk & Eex & Es & Hc).
  fold inp out in Emk, Eex, Es, Hc. split.
  - apply compress_pdf_run_inv in Hc as (gs & tok & _ & _ & -> & _).
    exists gs, tok,
      ([ "-sDEVICE=pdfwrite"; "-dCompatibilityLevel=1.4";
         ("-dPDFSETTINGS=" ++ tok)%string; "-dNOPAUSE"; "-dBATCH"; "-dQUIET";
         "-dDetectDuplicateImages=true"; "-dCompressFonts=true";
         "-dSubsetFonts=true" ]
       ++ match args_dpi args with Some d => extra_flags d | None => [] end).
    split; [reflexivity|].
    rewrite build_cmd_shape, <- app_assoc. reflexivity.
  - pose proof (main_compresses args w w1) as Hm. cbv zeta in Hm.
    fold inp out in Hm. destruct (Hm Emk Eex Es) as (tail & Hlog & _).
    exists [ EvResolve (args_input args) inp; EvResolve (args_output args) out ].
    eexists. split; [rewrite Hlog; reflexivity|].
    right. apply in_or_app. left. exact Hc.
Qed.

Lemma X10_witness :
  (exists gs tok front,
      build_cmd "/usr/bin/gs" "/ebook" (MkPath "/home/u/doc.pdf")
                (MkPath "/home/u/out/small.pdf") None
      = build_cmd gs tok (MkPath "/home/u/doc.pdf")
                  (MkPath "/home/u/out/small.pdf") None
      /\ build_cmd "/usr/bin/gs" "/ebook" (MkPath "/home/u/doc.pdf")
                   (MkPath "/home/u/out/small.pdf") None
         = gs :: front ++ [ "-sOutputFile=/home/u/out/small.pdf";
                            "/home/u/doc.pdf" ]%string)
  /\ exists before after,
       log (main (H := Demo.host)
                 (Demo.cli "/home/u/doc.pdf" "/home/u/out/small.pdf" "ebook"
                           None None)
                 Demo.installed)
       = before ++ EvMkdir (MkPath "/home/u/out") None :: after
       /\ In (EvRun (build_cmd "/usr/bin/gs" "/ebook" (MkPath "/home/u/doc.pdf")
                               (MkPath "/home/u/out/small.pdf") None)
                    (Some {| returncode := 0; stdout := ""; stderr := "" |}))
             after.
Proof.
  apply (X10_engine_gets_resolved_paths (H := Demo.host)
           (Demo.cli "/home/u/doc.pdf" "/home/u/out/small.pdf" "ebook"
                     None None)
           Demo.installed).
  vm_compute. do 7 right. left. reflexivity.
Defined.

(** ** X11 *)

(** X11.  The letter case of a valid preset changes nothing: two
    spellings of the same preset name make [compress_pdf] do the same
    calls, leave the same world and end the same way. *)
Theorem X11_preset_case_irrelevant {H : Host} (w : world)
    (input_pdf output_pdf : Path) (p1 p2 name : string) (dpi : option Z)
    (gs_path : option string) :
  In name preset_names ->
  Str.eq_nocase p1 name = true ->
  Str.eq_nocase p2 name = true ->
  compress_pdf input_pdf output_pdf p1 dpi gs_path w
  = compress_pdf input_pdf output_pdf p2 dpi gs_path w.
Proof.
  intros Hin H1 H2.
  pose proof (dict_get_valid p1 name Hin H1) as T1.
  pose proof (dict_get_valid p2 name Hin H2) as T2.
  destruct (value (find_gs gs_path w)) as [gs|e] eqn:Hgs.
  - rewrite (compress_pdf_runs _ _ p1 _ _ _ _ _ Hgs T1).
    rewrite (compress_pdf_runs _ _ p2 _ _ _ _ _ Hgs T2). reflexivity.
  - rewrite (compress_pdf_locator_fails _ _ p1 _ _ _ _ Hgs).
    rewrite (compress_pdf_locator_fails _ _ p2 _ _ _ _ Hgs). reflexivity.
Qed.

Lemma X11_witness :
  compress_pdf (H := Demo.host) (MkPath "/home/u/doc.pdf")
               (MkPath "/home/u/out.pdf") "SCREEN" (Some 72) None
               Demo.installed
  = compress_pdf (H := Demo.host) (MkPath "/home/u/doc.pdf")
                 (MkPath "/home/u/out.pdf") "Screen" (Some 72) None
                 Demo.installed.
Proof.
  apply (X11_preset_case_irrelevant (H := Demo.host) Demo.installed
           (MkPath "/home/u/doc.pdf") (MkPath "/home/u/out.pdf")
           "SCREEN" "Screen" "screen" (Some 72) None).
  - simpl. tauto.
  - reflexivity.
  - reflexivity.
Defined.

(** ** X12 *)

(** X12.  [compress_pdf] does nothing after the engine has ended, whether
    with status 0 or not: the world it leaves is the world the engine
    left, so whatever a failed engine wrote stays where it is. *)
Theorem X12_no_cleanup_after_engine {H : Host} (w : world)
    (input_pdf output_pdf : Path) (preset : string) (dpi : option Z)
    (gs_path : option string) (cmd : list string) (r : CompletedProcess) :
  let oc := compress_pdf input_pdf output_pdf preset dpi gs_path w in
  In (EvRun cmd (Some r)) (log oc) ->
  exists w', run w cmd = inr (r, w')
             /\ final oc = w'
             /\ log oc = log (find_gs gs_path w) ++ [EvRun cmd (Some r)].
Proof.
  intros oc Hin. unfold oc in *.
  destruct (compress_pdf_run_inv _ _ _ _ _ _ _ _ Hin)
    as (gs & tok & Hgs & Htok & -> & w' & Hrun).
  exists w'. split; [exact Hrun|].
  rewrite (compress_pdf_runs _ _ _ _ _ _ _ _ Hgs Htok). cbv zeta.
  rewrite Hrun. cbn [final log]. auto.
Qed.

Lemma X12_witness :
  exists w',
    run (Host := Demo.host) Demo.failing
        (build_cmd "/usr/bin/gs" "/ebook" (MkPath "/home/u/doc.pdf")
                   (MkPath "/home/u/out.pdf") None)
    = inr ({| returncode := 1; stdout := " ";
              stderr := "error: corrupt xref" ++ LF |}, w')
    /\ final (compress_pdf (H := Demo.host) (MkPath "/home/u/doc.pdf")
                           (MkPath "/home/u/out.pdf") "ebook" None None
                           Demo.failing) = w'
    /\ log (compress_pdf (H := Demo.host) (MkPath "/home/u/doc.pdf")
                         (MkPath "/home/u/out.pdf") "ebook" None None
                         Demo.failing)
       = log (find_gs (H := Demo.host) None Demo.failing)
         ++ [ EvRun (build_cmd "/usr/bin/gs" "/ebook" (MkPath "/home/u/doc.pdf")
                               (MkPath "/home/u/out.pdf") None)
                    (Some {| returncode := 1; stdout := " ";
                             stderr := "error: corrupt xref" ++ LF |}) ].
Proof.
  apply (X12_no_cleanup_after_engine (H := Demo.host) Demo.failing
           (MkPath "/home/u/doc.pdf") (MkPath "/home/u/out.pdf") "ebook"
           None None).
  vm_compute. do 3 right. left. reflexivity.
Defined.
